(** * The chart component's config resolver, style generator and context hook

    A shallow embedding of [src/components/ui/chart.tsx]:
    - [getPayloadConfigFromPayload], the resolver that picks the config entry
      for a payload item handed over by the charting library;
    - [ChartStyle], the generator of the CSS custom properties;
    - [useChart], the context hook;
    - the [ChartConfig] type;
    - the chart id [ChartContainer] computes;
    - [ChartLegendContent] and [ChartTooltipContent], which render the
      payload items with the config entries the resolver picks.

    The payload is typed [unknown] in the source, so it is modelled as a
    dynamically typed JavaScript value over a heap of objects.  The config is
    typed [ChartConfig], so it is modelled with the fields that type gives
    it. *)

From Stdlib Require Import ZArith Ascii DecimalString DecimalPos DecimalZ.
From stdpp Require Import base option list strings gmap.

Open Scope string_scope.

(* ===================================================================== *)
(** * The host: what JavaScript and React provide                        *)
(* ===================================================================== *)

(** Numbers are IEEE doubles in JavaScript and [String(n)] is a built-in of
    the language; neither is code of the repository.  They are taken as
    parameters, together with the two React types the config mentions. *)
Class Host : Type := {
  Number : Type;
  (** [String(n)] for a number [n] *)
  NumberToString : Number -> string;
  (** [ToBoolean(n)]: false for [0], [-0] and [NaN] *)
  NumberToBoolean : Number -> bool;
  ReactNode : Type;
  ComponentType : Type
}.

(** Integer-valued numbers below [10^21] in magnitude print as their decimal
    numeral; this instance is the one the concrete examples run on. *)
Definition decimal (z : Z) : string := NilZero.string_of_int (Z.to_int z).

Definition IntegerHost : Host := {|
  Number := Z;
  NumberToString := decimal;
  NumberToBoolean := fun z => negb (z =? 0)%Z;
  ReactNode := string;
  ComponentType := string
|}.

Module JS.
Section Values.
Context {host : Host}.

(** Objects live in a heap and values refer to them, so that two fields may
    hold the same object and an object may reach itself. *)
Definition loc := nat.

Inductive JsValue : Type :=
| JUndefined
| JNull
| JBoolean (b : bool)
| JNumber (n : Number)
| JBigInt (z : Z)
| JString (s : string)
| JSymbol (description : string)
| JObject (l : loc)
| JFunction (l : loc).

(** The own data properties of an object of the payload.  Accessor
    properties and proxies are outside the model.  So are the properties a
    payload object inherits: the programs here read a field of the payload
    to test it for a string or a number, or for truth, and what an ordinary
    object inherits from [Object.prototype] are functions and the prototype
    itself.  The config is another matter: see [config_get] below. *)
Definition Fields : Type := gmap string JsValue.

Definition Heap : Type := gmap loc Fields.

(** A location that was never written holds an object without fields. *)
Definition fields_at (h : Heap) (l : loc) : Fields := default ∅ (h !! l).

Inductive JsError : Type :=
| TypeError (message : string)
| Error (message : string).

Inductive Completion (A : Type) : Type :=
| Return (a : A)
| Throw (e : JsError).
Arguments Return {A} a.
Arguments Throw {A} e.

(** A computation runs on a heap and hands back the heap it leaves, with the
    value it returns or the error it throws. *)
Definition M (A : Type) : Type := Heap -> Completion A * Heap.

Definition ret {A} (a : A) : M A := fun h => (Return a, h).

Definition throw {A} (e : JsError) : M A := fun h => (Throw e, h).

Definition bind {A B} (c : M A) (k : A -> M B) : M B :=
  fun h =>
    match c h with
    | (Return a, h') => k a h'
    | (Throw e, h') => (Throw e, h')
    end.

(** [typeof v] *)
Definition typeof (v : JsValue) : string :=
  match v with
  | JUndefined => "undefined"
  | JNull => "object"
  | JBoolean _ => "boolean"
  | JNumber _ => "number"
  | JBigInt _ => "bigint"
  | JString _ => "string"
  | JSymbol _ => "symbol"
  | JObject _ => "object"
  | JFunction _ => "function"
  end.

(** [v === null] *)
Definition is_null (v : JsValue) : bool :=
  match v with JNull => true | _ => false end.

(** [ToBoolean(v)], the test behind [&&], [||], [!] and [?:] *)
Definition ToBoolean (v : JsValue) : bool :=
  match v with
  | JUndefined | JNull => false
  | JBoolean b => b
  | JNumber n => NumberToBoolean n
  | JBigInt z => negb (z =? 0)%Z
  | JString s => negb (String.eqb s "")
  | JSymbol _ | JObject _ | JFunction _ => true
  end.

(** [k in v]: a TypeError unless [v] is an object. *)
Definition js_in (k : string) (v : JsValue) : M bool :=
  fun h =>
    match v with
    | JObject l | JFunction l =>
        (Return (bool_decide (is_Some (fields_at h l !! k))), h)
    | _ =>
        (Throw (TypeError "Cannot use 'in' operator to search for a key in a primitive"), h)
    end.

(** [v[k]]: a TypeError on [undefined] and [null]; [undefined] when the
    property is missing.  The index and length properties of a string
    primitive are not modelled: no program here reads a property of a
    primitive. *)
Definition js_get (v : JsValue) (k : string) : M JsValue :=
  fun h =>
    match v with
    | JUndefined | JNull =>
        (Throw (TypeError "Cannot read properties of undefined or null"), h)
    | JObject l | JFunction l => (Return (default JUndefined (fields_at h l !! k)), h)
    | _ => (Return JUndefined, h)
    end.

(** [String(v)] on the values that pass
    [typeof v === "string" || typeof v === "number"], nothing on the others. *)
Definition String_of_string_or_number (v : JsValue) : option string :=
  match v with
  | JString s => Some s
  | JNumber n => Some (NumberToString n)
  | _ => None
  end.

End Values.

Arguments Return {A} a.
Arguments Throw {A} e.

End JS.

Import JS.

Notation "'let*' x ':=' c 'in' k" := (bind c (fun x => k))
  (at level 10, x name, c at level 100, k at level 200).

(* ===================================================================== *)
(** * The config                                                         *)
(* ===================================================================== *)

Section Chart.
Context {host : Host}.

(** [const THEMES = { light: "", dark: ".dark" } as const], in the order
    [Object.entries] lists it. *)
Definition THEMES : list (string * string) := [("light", ""); ("dark", ".dark")].

(** [Record<keyof typeof THEMES, string>] *)
Record ThemeColors : Type := { light : string; dark : string }.

(** [theme[name]], [undefined] for a property the record does not have. *)
Definition theme_color (t : ThemeColors) (name : string) : option string :=
  if String.eqb name "light" then Some (light t)
  else if String.eqb name "dark" then Some (dark t)
  else None.

(** One entry of the config as it exists at run time: every field may be
    missing.  Which of these shapes the [ChartConfig] type admits is
    [ChartConfig_entry] below. *)
Record ChartItem : Type := {
  label : option ReactNode;
  icon : option ComponentType;
  color : option string;
  theme : option ThemeColors
}.

(** The config object, as the list of its own entries in the order
    [Object.entries] enumerates them.  It is an ordinary object: what it
    does not hold itself it inherits from [Object.prototype]. *)
Definition ChartConfig : Type := list (string * ChartItem).

(** The names of the members of [Object.prototype]. *)
Definition Object_prototype : list string :=
  ["constructor"; "__defineGetter__"; "__defineSetter__"; "hasOwnProperty";
   "__lookupGetter__"; "__lookupSetter__"; "isPrototypeOf"; "propertyIsEnumerable";
   "toString"; "valueOf"; "__proto__"; "toLocaleString"].

(** [k] names a member of [Object.prototype]. *)
Definition inherited (k : string) : bool :=
  existsb (String.eqb k) Object_prototype.

(** What indexing the config gives when it is not [undefined]: an entry of
    the config, or the member of [Object.prototype] of that name (a
    function, or the prototype itself for [__proto__]). *)
Inductive ConfigValue : Type :=
| Entry (item : ChartItem)
| Inherited (member : string).

(** The own entry of the config under [k]. *)
Fixpoint own_entry (config : ChartConfig) (k : string) : option ChartItem :=
  match config with
  | [] => None
  | (k', item) :: rest => if String.eqb k' k then Some item else own_entry rest k
  end.

(** [config[k]], [None] for [undefined]: the own entry, else the inherited
    member. *)
Definition config_get (config : ChartConfig) (k : string) : option ConfigValue :=
  match own_entry config k with
  | Some item => Some (Entry item)
  | None => if inherited k then Some (Inherited k) else None
  end.

(** [k in config]: own or inherited. *)
Definition config_in (k : string) (config : ChartConfig) : bool :=
  match own_entry config k with
  | Some _ => true
  | None => inherited k
  end.

(** [itemConfig?.label] and [itemConfig?.icon]: no member of
    [Object.prototype], function or object, has a [label] or an [icon]. *)
Definition label_of (itemConfig : option ConfigValue) : option ReactNode :=
  match itemConfig with
  | Some (Entry entry) => label entry
  | _ => None
  end.

Definition icon_of (itemConfig : option ConfigValue) : option ComponentType :=
  match itemConfig with
  | Some (Entry entry) => icon entry
  | _ => None
  end.

(** The two members of the union in the [ChartConfig] type:
    [{ color?: string; theme?: never }] and
    [{ color?: never; theme: Record<keyof typeof THEMES, string> }]. *)
Definition direct_color_member (item : ChartItem) : bool :=
  match theme item with None => true | Some _ => false end.

Definition theme_member (item : ChartItem) : bool :=
  match color item, theme item with
  | None, Some _ => true
  | _, _ => false
  end.

(** An entry has the type of a [ChartConfig] entry when it is in one of the
    two members ([label] and [icon] are optional in both). *)
Definition ChartConfig_entry (item : ChartItem) : bool :=
  direct_color_member item || theme_member item.

(* ===================================================================== *)
(** * useChart                                                           *)
(* ===================================================================== *)

Record ChartContextProps : Type := { config : ChartConfig }.

(** [context] is what [React.useContext(ChartContext)] gives: the value of
    the nearest provider, or the default [null]. *)
Definition useChart (context : option ChartContextProps) : M ChartContextProps :=
  match context with
  | None => throw (Error "useChart must be used within a <ChartContainer />")
  | Some context => ret context
  end.

(* ===================================================================== *)
(** * getPayloadConfigFromPayload                                        *)
(* ===================================================================== *)

(** [key in obj && (typeof obj[key] === "string" || typeof obj[key] === "number")],
    with [String(obj[key])] when it holds. *)
Definition string_or_number_at (obj : JsValue) (key : string) : M (option string) :=
  let* present := js_in key obj in
  if (present : bool) then
    let* v := js_get obj key in
    ret (String_of_string_or_number v)
  else ret None.

Definition getPayloadConfigFromPayload
    (config : ChartConfig) (payload : JsValue) (key : string) : M (option ConfigValue) :=
  if negb (String.eqb (typeof payload) "object") || is_null payload then
    ret None
  else
    let typedPayload := payload in
    let* nested := js_get typedPayload "payload" in
    let payloadPayload :=
      if ToBoolean nested && String.eqb (typeof nested) "object" && negb (is_null nested)
      then nested
      else JUndefined in
    let* direct := string_or_number_at typedPayload key in
    let* configLabelKey :=
      match direct with
      | Some s => ret s
      | None =>
          if ToBoolean payloadPayload then
            let* inner := string_or_number_at payloadPayload key in
            ret (default key inner)
          else ret key
      end in
    ret (if config_in configLabelKey config
         then config_get config configLabelKey
         else config_get config key).

(* ===================================================================== *)
(** * ChartStyle                                                         *)
(* ===================================================================== *)

(** The line feed of the template literals. *)
Definition LF : string := String (Ascii.ascii_of_nat 10) "".

(** [parts.join(sep)] *)
Fixpoint join (sep : string) (parts : list string) : string :=
  match parts with
  | [] => ""
  | [part] => part
  | part :: rest => part +:+ sep +:+ join sep rest
  end.

(** A string is truthy unless it is empty. *)
Definition nonempty (s : string) : bool := negb (String.eqb s "").

(** [itemConfig.theme || itemConfig.color], as the condition of the filter:
    an object is truthy, a string is truthy unless it is empty. *)
Definition theme_or_color (itemConfig : ChartItem) : bool :=
  match theme itemConfig with
  | Some _ => true
  | None =>
      match color itemConfig with
      | Some c => nonempty c
      | None => false
      end
  end.

(** [itemConfig.theme?.[theme] || itemConfig.color] *)
Definition themed_color (itemConfig : ChartItem) (themeName : string) : option string :=
  match
    match theme itemConfig with
    | Some t => theme_color t themeName
    | None => None
    end
  with
  | Some c => if nonempty c then Some c else color itemConfig
  | None => color itemConfig
  end.

(** The callback of the inner [map]:
    [color ? `  --color-${key}: ${color};` : null]. *)
Definition css_variable (themeName : string) (entry : string * ChartItem) : option string :=
  let '(key, itemConfig) := entry in
  match themed_color itemConfig themeName with
  | Some c =>
      if nonempty c then Some ("  --color-" +:+ key +:+ ": " +:+ c +:+ ";") else None
  | None => None
  end.

(** The callback of the outer [map]: the rule of one theme.  [omap] is the
    inner [map] followed by [filter(Boolean)]. *)
Definition theme_rule (id : string) (colorConfig : ChartConfig) (themeEntry : string * string) : string :=
  let '(themeName, prefix) := themeEntry in
  LF +:+ prefix +:+ " [data-chart=" +:+ id +:+ "] {" +:+ LF
     +:+ join LF (omap (css_variable themeName) colorConfig) +:+ LF
     +:+ "}" +:+ LF.

(** [None] is [null]; [Some html] is the [style] element whose inner HTML is
    [html]. *)
Definition ChartStyle (id : string) (config : ChartConfig) : option string :=
  let colorConfig := List.filter (fun entry => theme_or_color (snd entry)) config in
  if Nat.eqb (length colorConfig) 0 then None
  else Some (join LF (map (theme_rule id colorConfig) THEMES)).

End Chart.

(* ===================================================================== *)
(** * The resolver as the specification words it                         *)
(* ===================================================================== *)

Module Spec.
Section Spec.
Context {host : Host}.

(** "[key] exists on the object as a string/number": the stringified value
    of the field, when there is such a field. *)
Definition string_or_number_field (fields : Fields) (key : string) : option string :=
  match fields !! key with
  | Some (JString s) => Some s
  | Some (JNumber n) => Some (NumberToString n)
  | _ => None
  end.

(** "the payload item has a nested payload": the fields of the object its
    [payload] field refers to. *)
Definition nested_payload (h : Heap) (fields : Fields) : option Fields :=
  match fields !! "payload" with
  | Some (JObject l) => Some (fields_at h l)
  | _ => None
  end.

(** The effective lookup key: the direct field, else the field of the
    nested payload, else the original key. *)
Definition effective_key (h : Heap) (fields : Fields) (key : string) : string :=
  match string_or_number_field fields key with
  | Some direct => direct
  | None =>
      match nested_payload h fields with
      | Some inner =>
          match string_or_number_field inner key with
          | Some nested => nested
          | None => key
          end
      | None => key
      end
  end.

(** "Look up the effective key in [config]; if absent, fall back to looking
    up the original [key].  Returns [undefined] if neither succeeds", where
    looking up is indexing the config object as JavaScript does it, the
    members it inherits included. *)
Definition lookup_with_fallback (config : ChartConfig) (effective key : string) : option ConfigValue :=
  match config_get config effective with
  | Some entry => Some entry
  | None =>
      match config_get config key with
      | Some entry => Some entry
      | None => None
      end
  end.

Definition resolve (config : ChartConfig) (h : Heap) (fields : Fields) (key : string) : option ConfigValue :=
  lookup_with_fallback config (effective_key h fields key) key.

(** Resolution by the direct field or the literal key alone. *)
Definition resolve_without_nested (config : ChartConfig) (fields : Fields) (key : string) : option ConfigValue :=
  lookup_with_fallback config (default key (string_or_number_field fields key)) key.

(** The same lookup over the entries of the config alone: "returns
    [config[effectiveKey]] when that entry exists, otherwise
    [config[originalKey]] when that entry exists, otherwise [undefined]". *)
Definition entry_with_fallback (config : ChartConfig) (effective key : string) : option ChartItem :=
  match own_entry config effective with
  | Some entry => Some entry
  | None =>
      match own_entry config key with
      | Some entry => Some entry
      | None => None
      end
  end.

Definition resolve_entry (config : ChartConfig) (h : Heap) (fields : Fields) (key : string) : option ChartItem :=
  entry_with_fallback config (effective_key h fields key) key.

End Spec.
End Spec.

(* ===================================================================== *)
(** * The notions the properties are stated with                         *)
(* ===================================================================== *)

Section Notions.
Context {host : Host}.

(** The value a payload item must be to pass the guard
    [typeof payload !== "object" || payload === null]. *)
Definition is_object (payload : JsValue) : bool :=
  String.eqb (typeof payload) "object" && negb (is_null payload).

(** Two heaps hold the same payload item when the item's object has the same
    fields in both and so has the object of its [payload] field. *)
Definition same_payload (payload : JsValue) (h1 h2 : Heap) : Prop :=
  match payload with
  | JObject l =>
      fields_at h1 l = fields_at h2 l
      /\ forall l', fields_at h1 l !! "payload" = Some (JObject l') ->
                    fields_at h1 l' = fields_at h2 l'
  | _ => True
  end.

(** Exactly one of [color] and [theme] is set. *)
Definition exactly_one_of_color_and_theme (item : ChartItem) : Prop :=
  (is_Some (color item) /\ theme item = None)
  \/ (color item = None /\ is_Some (theme item)).

(** Both [color] and [theme] are set. *)
Definition both_color_and_theme (item : ChartItem) : Prop :=
  is_Some (color item) /\ is_Some (theme item).


(** The custom property of one entry. *)
Definition custom_property (key c : string) : string :=
  "  --color-" +:+ key +:+ ": " +:+ c +:+ ";".

End Notions.

(* ===================================================================== *)
(** * Concrete configs and heaps                                         *)
(* ===================================================================== *)

Section Data.
#[local] Existing Instance IntegerHost.

Definition desktop : ChartItem :=
  {| label := Some ("Desktop" : string); icon := None; color := Some "red"; theme := None |}.

Definition mobile : ChartItem :=
  {| label := Some ("Mobile" : string); icon := None; color := None;
     theme := Some {| light := "#fff"; dark := "#000" |} |}.

(** An entry with a label and nothing else. *)
Definition bare : ChartItem :=
  {| label := Some ("Other" : string); icon := None; color := None; theme := None |}.


(** [{ foo: "bar" }] at location 0. *)
Definition heap_direct : Heap :=
  {[ 0 := ({[ "foo" := JString "bar" ]} : Fields) ]}.

(** [{ foo: 42 }] at location 0. *)
Definition heap_numeric : Heap :=
  {[ 0 := ({[ "foo" := JNumber 42%Z ]} : Fields) ]}.

(** [{ payload: { foo: "bar" } }] at location 0, its payload at location 1. *)
Definition heap_nested : Heap :=
  {[ 0 := ({[ "payload" := JObject 1 ]} : Fields);
     1 := ({[ "foo" := JString "bar" ]} : Fields) ]}.

(** [heap_nested] next to an object that has nothing to do with the item. *)
Definition heap_nested_and_more : Heap :=
  <[ 7 := ({[ "foo" := JString "baz" ]} : Fields) ]> heap_nested.

(** [{ payload: "bar", foo: null }] at location 0. *)
Definition heap_string_payload : Heap :=
  {[ 0 := ({[ "payload" := JString "bar"; "foo" := JNull ]} : Fields) ]}.

(** [{}] at location 0. *)
Definition heap_empty_object : Heap := {[ 0 := (∅ : Fields) ]}.

(** [{ name: "constructor" }] at location 0. *)
Definition heap_constructor : Heap :=
  {[ 0 := ({[ "name" := JString "constructor" ]} : Fields) ]}.

End Data.

(* ===================================================================== *)
(** * The chart id of ChartContainer                                     *)
(* ===================================================================== *)

Section Container.
Context {host : Host}.

(** [s.replace(/:/g, "")] *)
Fixpoint remove_colons (s : string) : string :=
  match s with
  | EmptyString => EmptyString
  | String c rest =>
      if Ascii.eqb c ":"%char then remove_colons rest else String c (remove_colons rest)
  end.

(** [`chart-${id || uniqueId.replace(/:/g, "")}`], where [id] is the prop of
    that name, absent or a string, and [uniqueId] is what [React.useId()]
    gave. *)
Definition chartId (id : option string) (uniqueId : string) : string :=
  "chart-" +:+
  match id with
  | Some given => if nonempty given then given else remove_colons uniqueId
  | None => remove_colons uniqueId
  end.

End Container.

(* ===================================================================== *)
(** * ChartLegendContent                                                 *)
(* ===================================================================== *)

Section Legend.
Context {host : Host}.

(** What the [toString] method of an object returns.  The method is code of
    the object, not of this file, so it is a parameter; it may throw and it
    may write the heap. *)
Variable ObjectToString : loc -> M string.

(** [ToString(v)], the conversion of a template literal. *)
Definition ToString (v : JsValue) : M string :=
  match v with
  | JUndefined => ret "undefined"
  | JNull => ret "null"
  | JBoolean b => ret (if b then "true" else "false")
  | JNumber n => ret (NumberToString n)
  | JBigInt z => ret (decimal z)
  | JString s => ret s
  | JSymbol _ => throw (TypeError "Cannot convert a Symbol value to a string")
  | JObject l | JFunction l => ObjectToString l
  end.

(** [String(v)]: as [ToString], but a symbol gives its description. *)
Definition js_String (v : JsValue) : M string :=
  match v with
  | JSymbol description => ret ("Symbol(" +:+ description +:+ ")")
  | _ => ToString v
  end.

(** [a || b], [b] being evaluated when [a] is falsy only. *)
Definition js_or (a : JsValue) (b : M JsValue) : M JsValue :=
  if ToBoolean a then ret a else b.

(** An optional string prop as the value the function sees. *)
Definition prop_value (prop : option string) : JsValue :=
  match prop with
  | Some s => JString s
  | None => JUndefined
  end.

(** [array.map((item, index) => f(item, index))], the indices counted from
    [index]. *)
Fixpoint map_indexed {A B} (f : A -> nat -> M B) (items : list A) (index : nat) : M (list B) :=
  match items with
  | [] => ret []
  | item :: rest =>
      let* first := f item index in
      let* others := map_indexed f rest (S index) in
      ret (first :: others)
  end.

(** The first child of the [div] of a legend item: the icon of the config
    entry, or a swatch in the color of the item. *)
Inductive LegendMark : Type :=
| LegendIcon (icon : ComponentType)
| LegendSwatch (backgroundColor : JsValue).

(** The [div] of a legend item: its React key, its mark and its label. *)
Record LegendItem : Type := {
  item_key : string;
  item_mark : LegendMark;
  item_label : option ReactNode
}.

(** The callback of [payload.map] in [ChartLegendContent]. *)
Definition legend_item (config : ChartConfig) (hideIcon : bool) (nameKey : option string)
    (item : JsValue) (index : nat) : M LegendItem :=
  let* keyValue :=
    js_or (prop_value nameKey)
      (let* dataKey := js_get item "dataKey" in
       js_or dataKey (ret (JString "value"))) in
  let* key := ToString keyValue in
  let* itemConfig := getPayloadConfigFromPayload config item key in
  let* value := js_get item "value" in
  let* reactKey :=
    if ToBoolean value then js_String value
    else ret ("legend-item-" +:+ decimal (Z.of_nat index)) in
  let* mark :=
    match (if hideIcon then None else icon_of itemConfig) with
    | Some component => ret (LegendIcon component)
    | None =>
        let* backgroundColor := js_get item "color" in
        ret (LegendSwatch backgroundColor)
    end in
  ret {| item_key := reactKey;
         item_mark := mark;
         item_label := label_of itemConfig |}.

(** The outer [div] of the legend: the arguments its class names are made
    from, and its items. *)
Record LegendElement : Type := {
  legend_classes : list (option string);
  legend_items : list LegendItem
}.

(** [context] is what [React.useContext(ChartContext)] gives where the
    legend is rendered; the other arguments are the props, [None] for one
    that is not passed.  [None] in the result is [null]. *)
Definition ChartLegendContent (context : option ChartContextProps)
    (className : option string) (hideIcon : option bool)
    (payload : option (list JsValue)) (verticalAlign nameKey : option string)
    : M (option LegendElement) :=
  let hideIcon := default false hideIcon in
  let verticalAlign := default "bottom" verticalAlign in
  let* chart := useChart context in
  match payload with
  | None | Some [] => ret None
  | Some items =>
      let* rendered := map_indexed (legend_item (config chart) hideIcon nameKey) items 0 in
      ret (Some {| legend_classes :=
                     [Some "flex items-center justify-center gap-4";
                      Some (if String.eqb verticalAlign "top" then "pb-3" else "pt-3");
                      className];
                   legend_items := rendered |})
  end.

End Legend.

(* ===================================================================== *)
(** * ChartTooltipContent                                                *)
(* ===================================================================== *)

Section Tooltip.
Context {host : Host}.

(** See [ToString] above. *)
Variable ObjectToString : loc -> M string.

(** Two questions React nodes are asked: [typeof node === "string"], with
    the string when it holds, and whether the node is truthy. *)
Variable node_string : ReactNode -> option string.
Variable node_truthy : ReactNode -> bool.

(** [value.toLocaleString()], a call of a method of the value: the built-in
    of a number or a string, which returns what the locale prescribes, or
    whatever the value holds under that name, which may throw and may write
    the heap, and which throws a TypeError when it is no function. *)
Variable toLocaleString : JsValue -> M string.

(** [v === undefined] *)
Definition is_undefined (v : JsValue) : bool :=
  match v with JUndefined => true | _ => false end.

(** [v?.[k]] *)
Definition js_get_optional (v : JsValue) (k : string) : M JsValue :=
  match v with
  | JUndefined | JNull => ret JUndefined
  | _ => js_get v k
  end.

(** The [div] of the label: the arguments of its class names and its
    content. *)
Record TooltipLabel : Type := {
  label_classes : list (option string);
  label_content : ReactNode
}.

(** The callback of [React.useMemo] that computes [tooltipLabel], as React
    runs it during a render; [None] is [null].  That a later render with
    the same dependencies reuses the result is not modelled.
    [labelFormatter] is the prop of that name, a function of the caller. *)
Definition tooltipLabel (config : ChartConfig) (hideLabel : bool)
    (payload : option (list JsValue)) (labelKey : option string)
    (label : option ReactNode)
    (labelFormatter : option (option ReactNode -> list JsValue -> M ReactNode))
    (labelClassName : option string) : M (option TooltipLabel) :=
  match payload with
  | None | Some [] => ret None
  | Some (item :: others) =>
      if hideLabel then ret None
      else if negb (ToBoolean item) then ret None
      else
        let* keyValue :=
          js_or (prop_value labelKey)
            (let* dataKey := js_get_optional item "dataKey" in
             js_or dataKey
               (let* name := js_get_optional item "name" in
                js_or name (ret (JString "value")))) in
        let* key := ToString ObjectToString keyValue in
        let* itemConfig := getPayloadConfigFromPayload config item key in
        let value : option ReactNode :=
          match
            (if ToBoolean (prop_value labelKey) then None
             else match label with Some node => node_string node | None => None end)
          with
          | Some text =>
              match label_of (config_get config text) with
              | Some node => if node_truthy node then Some node else label
              | None => label
              end
          | None =>
              label_of itemConfig
          end in
        match labelFormatter with
        | Some format =>
            let* content := format value (item :: others) in
            ret (Some {| label_classes := [Some "font-medium"; labelClassName];
                         label_content := content |})
        | None =>
            match value with
            | Some node =>
                if node_truthy node
                then ret (Some {| label_classes := [Some "font-medium"; labelClassName];
                                  label_content := node |})
                else ret None
            | None => ret None
            end
        end
  end.

(** What a row shows before the name: the icon of the config entry, or the
    indicator with the classes that depend on the props and its color, or
    nothing. *)
Inductive TooltipMark : Type :=
| TooltipIcon (icon : ComponentType)
| TooltipIndicator (classes : list (string * bool)) (indicatorColor : JsValue)
| TooltipNoMark.

(** [itemConfig?.label || item.name] *)
Inductive TooltipName : Type :=
| NameFromConfig (node : ReactNode)
| NameOfItem (name : JsValue).

(** [item.value && (<span>{item.value.toLocaleString()}</span>)]: the
    [span] with the formatted value, or the falsy value itself. *)
Inductive TooltipValue : Type :=
| ValueSpan (text : string)
| ValueAsIs (value : JsValue).

(** The children of the [div] of a row: what [formatter] returned, or the
    mark, the label when it is nested, the name and the value. *)
Inductive TooltipBody : Type :=
| BodyFormatted (node : ReactNode)
| BodyDefault (mark : TooltipMark) (alignment : string)
    (nested : option TooltipLabel) (name : TooltipName) (value : TooltipValue).

Record TooltipRow : Type := {
  row_key : string;
  row_centered : bool;
  row_body : TooltipBody
}.

(** The callback of [payload.map] in [ChartTooltipContent].  [formatter] and
    [color] are the props of these names, [nestLabel] and [label] the
    constants [nestLabel] and [tooltipLabel] of the component, [payload] the
    array the callback runs over. *)
Definition tooltip_row (config : ChartConfig) (indicator : string) (hideIndicator : bool)
    (formatter : option (JsValue -> JsValue -> JsValue -> nat -> JsValue -> M ReactNode))
    (color nameKey : option string) (nestLabel : bool) (label : option TooltipLabel)
    (item : JsValue) (index : nat) : M TooltipRow :=
  let* keyValue :=
    js_or (prop_value nameKey)
      (let* name := js_get item "name" in
       let* named :=
         js_or name (let* dataKey := js_get item "dataKey" in js_or dataKey (ret (JString ""))) in
       let* text := js_String ObjectToString named in
       js_or (JString text) (ret (JString "value"))) in
  let* key := ToString ObjectToString keyValue in
  let* itemConfig := getPayloadConfigFromPayload config item key in
  let* indicatorColor :=
    js_or (prop_value color)
      (let* inner := js_get item "payload" in
       let* fill := js_get_optional inner "fill" in
       js_or fill (js_get item "color")) in
  let* dataKey := js_get item "dataKey" in
  let* reactKey :=
    if ToBoolean dataKey then js_String ObjectToString dataKey
    else ret ("item-" +:+ decimal (Z.of_nat index)) in
  let default_body : M TooltipBody :=
    let mark :=
      match icon_of itemConfig with
      | Some component => TooltipIcon component
      | None =>
          if hideIndicator then TooltipNoMark
          else TooltipIndicator
                 [("h-2.5 w-2.5", String.eqb indicator "dot");
                  ("w-1", String.eqb indicator "line");
                  ("w-0 border-[1.5px] border-dashed bg-transparent",
                   String.eqb indicator "dashed");
                  ("my-0.5", nestLabel && String.eqb indicator "dashed")]
                 indicatorColor
      end in
    let* name :=
      match
        match label_of itemConfig with
        | Some node => if node_truthy node then Some node else None
        | None => None
        end
      with
      | Some node => ret (NameFromConfig node)
      | None => let* name := js_get item "name" in ret (NameOfItem name)
      end in
    let* value := js_get item "value" in
    let* cell :=
      if ToBoolean value then
        let* text := toLocaleString value in
        ret (ValueSpan text)
      else ret (ValueAsIs value) in
    ret (BodyDefault mark (if nestLabel then "items-end" else "items-center")
           (if nestLabel then label else None) name cell) in
  let* body :=
    match formatter with
    | Some format =>
        let* value := js_get_optional item "value" in
        if is_undefined value then default_body
        else
          let* name := js_get item "name" in
          if ToBoolean name then
            let* inner := js_get item "payload" in
            let* node := format value name item index inner in
            ret (BodyFormatted node)
          else default_body
    | None => default_body
    end in
  ret {| row_key := reactKey;
         row_centered := String.eqb indicator "dot";
         row_body := body |}.

(** The outer [div] of the tooltip: the [className] prop, the label when it
    is not nested, and the rows. *)
Record TooltipElement : Type := {
  tooltip_className : option string;
  tooltip_label : option TooltipLabel;
  tooltip_rows : list TooltipRow
}.

(** [context] is what [React.useContext(ChartContext)] gives where the
    tooltip is rendered; the other arguments are the props, [None] for one
    that is not passed.  [None] in the result is [null]. *)
Definition ChartTooltipContent (context : option ChartContextProps)
    (active : option bool) (payload : option (list JsValue))
    (className indicator : option string) (hideLabel hideIndicator : option bool)
    (label : option ReactNode)
    (labelFormatter : option (option ReactNode -> list JsValue -> M ReactNode))
    (labelClassName : option string)
    (formatter : option (JsValue -> JsValue -> JsValue -> nat -> JsValue -> M ReactNode))
    (color nameKey labelKey : option string) : M (option TooltipElement) :=
  let indicator := default "dot" indicator in
  let hideLabel := default false hideLabel in
  let hideIndicator := default false hideIndicator in
  let* chart := useChart context in
  let* tooltipLabel :=
    tooltipLabel (config chart) hideLabel payload labelKey label labelFormatter
      labelClassName in
  match (if default false active then payload else None) with
  | None | Some [] => ret None
  | Some items =>
      let nestLabel := Nat.eqb (length items) 1 && negb (String.eqb indicator "dot") in
      let* rows :=
        map_indexed
          (tooltip_row (config chart) indicator hideIndicator formatter color nameKey
             nestLabel tooltipLabel)
          items 0 in
      ret (Some {| tooltip_className := className;
                   tooltip_label := if nestLabel then None else tooltipLabel;
                   tooltip_rows := rows |})
  end.

End Tooltip.

(* ===================================================================== *)
(** * The notions the further properties are stated with                 *)
(* ===================================================================== *)

Section Further_notions.
Context {host : Host}.

(** No character of [s] is a colon. *)
Definition colon_free (s : string) : Prop :=
  ~ In ":"%char (Stdlib.Strings.String.list_ascii_of_string s).

(** A field of the type [string | number], optional: absent, [undefined],
    a string or a number. *)
Definition string_or_number_or_absent (field : option JsValue) : bool :=
  match field with
  | None | Some JUndefined | Some (JString _) | Some (JNumber _) => true
  | Some _ => false
  end.

(** An item of the declared type [RechartsLegendPayload], as far as the
    legend converts its fields: an object whose [dataKey] and [value] are
    strings or numbers where they are set. *)
Definition is_RechartsLegendPayload (h : Heap) (item : JsValue) : bool :=
  match item with
  | JObject l =>
      string_or_number_or_absent (fields_at h l !! "dataKey")
      && string_or_number_or_absent (fields_at h l !! "value")
  | _ => false
  end.

(** The key the legend resolves an item under: [nameKey], else the
    [dataKey] of the item, else ["value"], the first that is truthy. *)
Definition legend_lookup_key (nameKey : option string) (fields : Fields) : string :=
  let from_item :=
    match fields !! "dataKey" with
    | Some (JString s) => if nonempty s then s else "value"
    | Some (JNumber n) => if NumberToBoolean n then NumberToString n else "value"
    | _ => "value"
    end in
  match nameKey with
  | Some name => if nonempty name then name else from_item
  | None => from_item
  end.

(** The fields of an item that is an object. *)
Definition item_fields (h : Heap) (item : JsValue) : Fields :=
  match item with
  | JObject l => fields_at h l
  | _ => ∅
  end.

(** The React key of a legend item: its [value] as a string when that is
    truthy, else its position. *)
Definition legend_react_key (fields : Fields) (index : nat) : string :=
  let by_position := "legend-item-" +:+ decimal (Z.of_nat index) in
  match fields !! "value" with
  | Some (JString s) => if nonempty s then s else by_position
  | Some (JNumber n) => if NumberToBoolean n then NumberToString n else by_position
  | _ => by_position
  end.

(** The swatch in the color the item carries. *)
Definition swatch_of (fields : Fields) : LegendMark :=
  LegendSwatch (default JUndefined (fields !! "color")).

(** What an item of the declared type renders to. *)
Definition legend_rendering (config : ChartConfig) (hideIcon : bool) (nameKey : option string)
    (h : Heap) (item : JsValue) (index : nat) : LegendItem :=
  let fields := item_fields h item in
  let itemConfig := Spec.resolve config h fields (legend_lookup_key nameKey fields) in
  {| item_key := legend_react_key fields index;
     item_mark :=
       match icon_of itemConfig with
       | Some component => if hideIcon then swatch_of fields else LegendIcon component
       | None => swatch_of fields
       end;
     item_label := label_of itemConfig |}.

(** [g] over the items and their positions, counted from [index]. *)
Fixpoint indexed {A B} (g : A -> nat -> B) (items : list A) (index : nat) : list B :=
  match items with
  | [] => []
  | item :: rest => g item index :: indexed g rest (S index)
  end.

(** Every color an entry carries is a non-empty string. *)
(** The custom property an entry declares from its own color. *)
Definition color_property (entry : string * ChartItem) : option string :=
  match color (snd entry) with
  | Some c => if nonempty c then Some (custom_property (fst entry) c) else None
  | None => None
  end.


End Further_notions.

(* ===================================================================== *)
(** * The notions the properties of the tooltip are stated with          *)
(* ===================================================================== *)

Section Tooltip_notions.
Context {host : Host}.
Variable node_string : ReactNode -> option string.
Variable node_truthy : ReactNode -> bool.
Variable toLocaleString : JsValue -> M string.

(** What [toLocaleString] returns where it returns. *)
Variable localized : JsValue -> string.

(** Where the tooltip formats the [value] of the item, which it does when
    the value is truthy, [toLocaleString] returns. *)
Definition value_localized (h : Heap) (item : JsValue) : Prop :=
  let value := default JUndefined (item_fields h item !! "value") in
  ToBoolean value = true -> toLocaleString value h = (Return (localized value), h).

(** An item of the tooltip, as far as the tooltip converts its fields: an
    object whose [dataKey] and [name] are strings or numbers where they are
    set. *)
Definition is_tooltip_Payload (h : Heap) (item : JsValue) : bool :=
  match item with
  | JObject l =>
      string_or_number_or_absent (fields_at h l !! "dataKey")
      && string_or_number_or_absent (fields_at h l !! "name")
  | _ => false
  end.

(** A field that is a truthy string or number, as a string. *)
Definition truthy_text (field : option JsValue) : option string :=
  match field with
  | Some (JString s) => if nonempty s then Some s else None
  | Some (JNumber n) => if NumberToBoolean n then Some (NumberToString n) else None
  | _ => None
  end.

(** The first of two optional strings. *)
Definition first_of (a b : option string) : option string :=
  match a with
  | Some text => Some text
  | None => b
  end.

(** The key a row is resolved under: [nameKey], else the [name] of the
    item, else its [dataKey], else ["value"], the first that is truthy. *)
Definition tooltip_lookup_key (nameKey : option string) (fields : Fields) : string :=
  let from_item :=
    let text :=
      default "" (first_of (truthy_text (fields !! "name")) (truthy_text (fields !! "dataKey"))) in
    if nonempty text then text else "value" in
  match nameKey with
  | Some name => if nonempty name then name else from_item
  | None => from_item
  end.

(** The key the label is resolved under: [labelKey], else the [dataKey] of
    the first item, else its [name], else ["value"]. *)
Definition label_lookup_key (labelKey : option string) (fields : Fields) : string :=
  let from_item :=
    default "value"
      (first_of (truthy_text (fields !! "dataKey")) (truthy_text (fields !! "name"))) in
  match labelKey with
  | Some name => if nonempty name then name else from_item
  | None => from_item
  end.

(** The color of the indicator: the [color] prop, else the [fill] of the
    nested payload, else the [color] of the item, the first that is
    truthy. *)
Definition tooltip_indicator_color (color : option string) (h : Heap) (fields : Fields) : JsValue :=
  let of_item :=
    let fill :=
      match fields !! "payload" with
      | Some (JObject inner) | Some (JFunction inner) =>
          default JUndefined (fields_at h inner !! "fill")
      | _ => JUndefined
      end in
    if ToBoolean fill then fill else default JUndefined (fields !! "color") in
  match color with
  | Some c => if nonempty c then JString c else of_item
  | None => of_item
  end.

(** The React key of a row: the [dataKey] of the item as a string when it
    is truthy, else the position of the row. *)
Definition tooltip_react_key (fields : Fields) (index : nat) : string :=
  default ("item-" +:+ decimal (Z.of_nat index)) (truthy_text (fields !! "dataKey")).

(** The value cell of a row. *)
Definition tooltip_value (fields : Fields) : TooltipValue :=
  let value := default JUndefined (fields !! "value") in
  if ToBoolean value then ValueSpan (localized value) else ValueAsIs value.

(** The mark of a row. *)
Definition tooltip_mark (itemConfig : option ConfigValue) (indicator : string)
    (hideIndicator nestLabel : bool) (indicatorColor : JsValue) : TooltipMark :=
  match icon_of itemConfig with
  | Some component => TooltipIcon component
  | None =>
      if hideIndicator then TooltipNoMark
      else TooltipIndicator
             [("h-2.5 w-2.5", String.eqb indicator "dot");
              ("w-1", String.eqb indicator "line");
              ("w-0 border-[1.5px] border-dashed bg-transparent",
               String.eqb indicator "dashed");
              ("my-0.5", nestLabel && String.eqb indicator "dashed")]
             indicatorColor
  end.

(** The name cell of a row. *)
Definition tooltip_name (itemConfig : option ConfigValue) (fields : Fields) : TooltipName :=
  match label_of itemConfig with
  | Some node =>
      if node_truthy node then NameFromConfig node
      else NameOfItem (default JUndefined (fields !! "name"))
  | None => NameOfItem (default JUndefined (fields !! "name"))
  end.

(** What an item renders to when there is no [formatter]. *)
Definition tooltip_row_rendering (config : ChartConfig) (indicator : string)
    (hideIndicator : bool) (color nameKey : option string) (nestLabel : bool)
    (nested : option TooltipLabel) (h : Heap) (item : JsValue) (index : nat) : TooltipRow :=
  let fields := item_fields h item in
  let itemConfig := Spec.resolve config h fields (tooltip_lookup_key nameKey fields) in
  {| row_key := tooltip_react_key fields index;
     row_centered := String.eqb indicator "dot";
     row_body :=
       BodyDefault
         (tooltip_mark itemConfig indicator hideIndicator nestLabel
            (tooltip_indicator_color color h fields))
         (if nestLabel then "items-end" else "items-center")
         (if nestLabel then nested else None)
         (tooltip_name itemConfig fields)
         (tooltip_value fields) |}.

(** The node a string label shows: the label of the config entry of that
    name when it is truthy, else the string itself. *)
Definition string_label_node (config : ChartConfig) (text : string) (node : ReactNode) : ReactNode :=
  match label_of (config_get config text) with
  | Some configured => if node_truthy configured then configured else node
  | None => node
  end.

(** The value the label is made from: for a string [label] without a
    [labelKey], the node of that string; else the label of the config entry
    the first item resolves to under the key of the label. *)
Definition tooltip_label_value (config : ChartConfig) (labelKey : option string)
    (label_prop : option ReactNode) (h : Heap) (fields : Fields) : option ReactNode :=
  match
    (if ToBoolean (prop_value labelKey) then None
     else match label_prop with Some node => node_string node | None => None end)
  with
  | Some text =>
      match label_prop with
      | Some node => Some (string_label_node config text node)
      | None => None
      end
  | None => label_of (Spec.resolve config h fields (label_lookup_key labelKey fields))
  end.

(** The label of the tooltip when there is no [labelFormatter]. *)
Definition tooltip_label_rendering (config : ChartConfig) (hideLabel : bool)
    (items : list JsValue) (labelKey : option string) (label_prop : option ReactNode)
    (labelClassName : option string) (h : Heap) : option TooltipLabel :=
  match items with
  | [] => None
  | item :: _ =>
      if hideLabel then None
      else if negb (ToBoolean item) then None
      else
        match tooltip_label_value config labelKey label_prop h (item_fields h item) with
        | Some node =>
            if node_truthy node
            then Some {| label_classes := [Some "font-medium"; labelClassName];
                         label_content := node |}
            else None
        | None => None
        end
  end.

(** The label a row shows nested below its name, if any. *)
Definition nested_label (row : TooltipRow) : option TooltipLabel :=
  match row_body row with
  | BodyDefault _ _ nested _ _ => nested
  | BodyFormatted _ => None
  end.

(** [payload.length === 1 && indicator !== "dot"] *)
Definition nests_label (items : list JsValue) (indicator : option string) : bool :=
  Nat.eqb (length items) 1 && negb (String.eqb (default "dot" indicator) "dot").

End Tooltip_notions.

(* ===================================================================== *)
(** * Concrete payloads for the legend and the tooltip                   *)
(* ===================================================================== *)

Section Further_data.
#[local] Existing Instance IntegerHost.

(** An entry with an icon. *)
Definition chrome : ChartItem :=
  {| label := Some ("Chrome" : string); icon := Some ("ChromeIcon" : string);
     color := Some "blue"; theme := None |}.

Definition chart_config : ChartConfig :=
  [("desktop", desktop); ("mobile", mobile); ("chrome", chrome)].

Definition chart_context : ChartContextProps := {| config := chart_config |}.

(** Two series items, a row of data they share, an item of a pie chart and
    an item whose [dataKey] is a function:
    - 0: [{ dataKey: "desktop", name: "desktop", value: 0, color: "#f00", payload: row }]
    - 1: [{ dataKey: "mobile", name: "mobile", color: "#00f", payload: row }]
    - 2: the row [{ month: "January", desktop: 0, mobile: 80 }]
    - 3: [{ value: "chrome", name: "visitors", color: "#0f0", payload: slice }]
    - 4: the slice [{ browser: "chrome", visitors: 275, fill: "#0a0" }]
    - 5: [{ dataKey: f, value: "chrome", payload: slice }], [f] a function at 6 *)
Definition chart_heap : Heap :=
  {[ 0 := ({[ "dataKey" := JString "desktop"; "name" := JString "desktop";
              "value" := JNumber 0%Z; "color" := JString "#f00";
              "payload" := JObject 2 ]} : Fields);
     1 := ({[ "dataKey" := JString "mobile"; "name" := JString "mobile";
              "color" := JString "#00f"; "payload" := JObject 2 ]} : Fields);
     2 := ({[ "month" := JString "January"; "desktop" := JNumber 0%Z;
              "mobile" := JNumber 80%Z ]} : Fields);
     3 := ({[ "value" := JString "chrome"; "name" := JString "visitors";
              "color" := JString "#0f0"; "payload" := JObject 4 ]} : Fields);
     4 := ({[ "browser" := JString "chrome"; "visitors" := JNumber 275%Z;
              "fill" := JString "#0a0" ]} : Fields);
     5 := ({[ "dataKey" := JFunction 6; "value" := JString "chrome";
              "payload" := JObject 4 ]} : Fields) ]}.

Definition series_items : list JsValue := [JObject 0; JObject 1].

(** An item of a pie chart whose slice carries a [fill], for a series the
    config does not know:
    - 0: [{ name: "visitors", dataKey: "visitors", value: 275, color: "#111", payload: slice }]
    - 1: the slice [{ browser: "safari", visitors: 275, fill: "#0a0" }] *)
Definition fill_heap : Heap :=
  {[ 0 := ({[ "name" := JString "visitors"; "dataKey" := JString "visitors";
              "value" := JNumber 275%Z; "color" := JString "#111";
              "payload" := JObject 1 ]} : Fields);
     1 := ({[ "browser" := JString "safari"; "visitors" := JNumber 275%Z;
              "fill" := JString "#0a0" ]} : Fields) ]}.

(** The [toString] of the objects of the examples. *)
Definition plain_toString : loc -> M string := fun _ => ret "[object Object]".

(** React nodes are strings in the examples: each is a string, truthy
    unless empty. *)
Definition string_node_string : ReactNode -> option string := fun node => Some node.

Definition string_node_truthy : ReactNode -> bool := fun node => nonempty node.

(** [toLocaleString] in a locale that prints integers in plain decimal; an
    object of the examples has no method of that name. *)
Definition plain_localized : JsValue -> string :=
  fun value =>
    match value with
    | JNumber n => decimal n
    | JString text => text
    | _ => ""
    end.

Definition plain_toLocaleString : JsValue -> M string :=
  fun value =>
    match value with
    | JNumber _ | JString _ => ret (plain_localized value)
    | _ => throw (TypeError "value.toLocaleString is not a function")
    end.

(** A [labelFormatter] that throws. *)
Definition failing_labelFormatter : option ReactNode -> list JsValue -> M ReactNode :=
  fun _ _ => throw (Error "no label").

(** A [formatter] that shows the name of the item. *)
Definition name_formatter : JsValue -> JsValue -> JsValue -> nat -> JsValue -> M ReactNode :=
  fun _ name _ _ _ =>
    ret (match name with JString text => text | _ => "" end : string).

End Further_data.

(* ===================================================================== *)
(** * Properties of the resolver                                         *)
(* ===================================================================== *)

Section Resolver.
Context {host : Host}.
Implicit Types (config : ChartConfig) (payload : JsValue) (key : string) (h : Heap).

Lemma is_object_JObject payload :
  is_object payload = true <-> exists l, payload = JObject l.
Proof.
  split.
  - destruct payload; try discriminate. eauto.
  - intros [l ->]. reflexivity.
Qed.

Lemma fallback_lookup config k key :
  (if config_in k config then config_get config k else config_get config key)
  = Spec.lookup_with_fallback config k key.
Proof.
  unfold config_in, Spec.lookup_with_fallback, config_get.
  destruct (own_entry config k); [reflexivity |].
  destruct (inherited k); [reflexivity |].
  destruct (own_entry config key); [reflexivity |].
  destruct (inherited key); reflexivity.
Qed.

(** Reading a key as a string or a number off an object of the heap. *)
Lemma string_or_number_at_object l key h :
  string_or_number_at (JObject l) key h
  = (Return (Spec.string_or_number_field (fields_at h l) key), h).
Proof.
  unfold string_or_number_at, bind, js_in, js_get, ret, Spec.string_or_number_field.
  destruct (fields_at h l !! key) as [v |] eqn:Hkey.
  - rewrite bool_decide_eq_true_2 by eauto.
    rewrite Hkey. destruct v; reflexivity.
  - rewrite bool_decide_eq_false_2 by (intros [v Hv]; discriminate).
    reflexivity.
Qed.

(** [String_of_string_or_number] answers on the values whose [typeof] is
    ["string"] or ["number"], and on no other. *)
Lemma String_of_string_or_number_typeof (v : JsValue) :
  is_Some (String_of_string_or_number v)
  <-> typeof v = "string" \/ typeof v = "number".
Proof.
  destruct v; simpl; split;
    try (intros [s Hs]; discriminate Hs);
    try (intros [Hs | Hn]; discriminate);
    eauto.
Qed.

(** The nested payload the resolver keeps: the value of the [payload] field
    when it is an object, [undefined] otherwise. *)
Lemma payloadPayload_cases (nested : JsValue) :
  (if ToBoolean nested && String.eqb (typeof nested) "object" && negb (is_null nested)
   then nested else JUndefined)
  = match nested with JObject l => JObject l | _ => JUndefined end.
Proof.
  destruct nested as [| | b | n | z | s | d | l | l]; try reflexivity.
  - destruct b; reflexivity.
  - simpl. destruct (NumberToBoolean n); reflexivity.
  - simpl. destruct (negb (z =? 0)%Z); reflexivity.
  - simpl. destruct (negb (String.eqb s "")); reflexivity.
Qed.

(** What one run of the resolver does: the heap comes back as it was, and
    the result is the one the specification words, [undefined] for a payload
    item that is no object. *)
Lemma resolver_run config payload key h :
  getPayloadConfigFromPayload config payload key h
  = (Return match payload with
            | JObject l => Spec.resolve config h (fields_at h l) key
            | _ => None
            end, h).
Proof.
  destruct payload as [| | b | n | z | s | d | l | l]; try reflexivity.
  unfold getPayloadConfigFromPayload.
  change (negb (String.eqb (typeof (JObject l)) "object") || is_null (JObject l))
    with false.
  cbv iota. unfold bind at 1, js_get. cbv beta iota zeta.
  rewrite payloadPayload_cases.
  unfold bind at 1. rewrite string_or_number_at_object.
  unfold Spec.resolve, Spec.effective_key, Spec.nested_payload.
  destruct (Spec.string_or_number_field (fields_at h l) key) as [direct |].
  - unfold bind, ret. rewrite fallback_lookup. reflexivity.
  - destruct (fields_at h l !! "payload") as [[| | b | n | z | s | d | l' | l'] |];
      simpl; unfold bind, ret; rewrite ?fallback_lookup; try reflexivity.
    rewrite string_or_number_at_object.
    destruct (Spec.string_or_number_field (fields_at h l') key);
      simpl; rewrite fallback_lookup; reflexivity.
Qed.

(** On a payload item that is a non-null object the resolver works in
    three tiers: the effective key is the stringified direct field when
    [key] is a string or number field of the item, else the stringified
    field of the nested payload object, else [key]; the result is what the
    config gives under the effective key when it has that key, as an entry
    of its own or as a member inherited from [Object.prototype], else what
    it gives under [key], else [undefined]. *)
Theorem resolver_three_tier_lookup config (l : loc) key h :
  getPayloadConfigFromPayload config (JObject l) key h
  = (Return (Spec.resolve config h (fields_at h l) key), h).
Proof. apply (resolver_run config (JObject l)). Qed.

(** C2. When the string-coerced effective key and the literal key are both
    entries of the config, the resolver returns the entry of the effective
    key. *)
Theorem resolver_prefers_effective_key config (l : loc) key h (coerced literal : ConfigValue) :
  config_get config (Spec.effective_key h (fields_at h l) key) = Some coerced ->
  config_get config key = Some literal ->
  getPayloadConfigFromPayload config (JObject l) key h = (Return (Some coerced), h).
Proof.
  intros Heffective _.
  rewrite resolver_run. unfold Spec.resolve, Spec.lookup_with_fallback.
  rewrite Heffective. reflexivity.
Qed.

(** C3. A payload item that is not an object ([null], [undefined], a
    string, a number, a boolean, ...) makes the resolver return [undefined]
    at once, whatever the config holds. *)
Theorem resolver_non_object_undefined config payload key h :
  is_object payload = false ->
  getPayloadConfigFromPayload config payload key h = (Return None, h).
Proof.
  intros Hguard. rewrite resolver_run.
  destruct payload; try reflexivity. discriminate Hguard.
Qed.

(** C6. A numeric direct field is coerced to its string form before the
    config is indexed. *)
Theorem resolver_numeric_coercion config (l : loc) key h (n : Number) (entry : ConfigValue) :
  fields_at h l !! key = Some (JNumber n) ->
  config_get config (NumberToString n) = Some entry ->
  getPayloadConfigFromPayload config (JObject l) key h = (Return (Some entry), h).
Proof.
  intros Hfield Hentry.
  rewrite resolver_run.
  unfold Spec.resolve, Spec.effective_key, Spec.string_or_number_field.
  rewrite Hfield. unfold Spec.lookup_with_fallback. rewrite Hentry. reflexivity.
Qed.

(** C8. The resolver is a function of its inputs and leaves the heap alone:
    two runs on the same config, key and payload item return the same
    result, whatever else the heaps hold, and each run hands back the heap
    it was given. *)
Theorem resolver_pure config payload key h1 h2 :
  same_payload payload h1 h2 ->
  exists result : Completion (option ConfigValue),
    getPayloadConfigFromPayload config payload key h1 = (result, h1)
    /\ getPayloadConfigFromPayload config payload key h2 = (result, h2).
Proof.
  intros Hsame. rewrite !resolver_run. eexists. split; [reflexivity |].
  destruct payload as [| | b | n | z | s | d | l | l]; try reflexivity.
  destruct Hsame as [Hfields Hnested].
  unfold Spec.resolve, Spec.effective_key, Spec.nested_payload.
  rewrite <- Hfields.
  destruct (fields_at h1 l !! "payload") as [[| | b | n | z | s | d | l' | l'] |];
    try reflexivity.
  rewrite (Hnested l' eq_refl). reflexivity.
Qed.

Lemma resolver_skips_non_object_nested_run config (l : loc) key h (nested : JsValue) :
  fields_at h l !! "payload" = Some nested ->
  is_object nested = false ->
  getPayloadConfigFromPayload config (JObject l) key h
  = (Return (Spec.resolve_without_nested config (fields_at h l) key), h).
Proof.
  intros Hfield Hguard. rewrite resolver_run.
  unfold Spec.resolve, Spec.resolve_without_nested, Spec.effective_key, Spec.nested_payload.
  rewrite Hfield.
  destruct (Spec.string_or_number_field (fields_at h l) key); [reflexivity |].
  destruct nested; try reflexivity. discriminate Hguard.
Qed.

(** C9. When the [payload] field of the item holds something that is not a
    non-null object, the tier of the nested payload is skipped: the result
    is the one of the direct field or the literal key alone. *)
Theorem resolver_skips_non_object_nested config (l : loc) key h (nested : JsValue) :
  fields_at h l !! "payload" = Some nested ->
  is_object nested = false ->
  getPayloadConfigFromPayload config (JObject l) key h
  = (Return (Spec.resolve_without_nested config (fields_at h l) key), h).
Proof. apply resolver_skips_non_object_nested_run. Qed.

(** With a [payload] field that holds no object, and a key other than
    ["payload"], the item resolves as the same item without that field. *)
Lemma resolver_payload_field_removed config (l : loc) key h (nested : JsValue) :
  fields_at h l !! "payload" = Some nested ->
  is_object nested = false ->
  key <> "payload" ->
  fst (getPayloadConfigFromPayload config (JObject l) key
         (<[l := delete "payload" (fields_at h l)]> h))
  = fst (getPayloadConfigFromPayload config (JObject l) key h).
Proof.
  intros Hfield Hguard Hkey.
  rewrite (resolver_skips_non_object_nested_run config l key h nested Hfield Hguard).
  rewrite resolver_run. simpl. f_equal.
  unfold Spec.resolve, Spec.resolve_without_nested, Spec.effective_key,
    Spec.nested_payload, Spec.string_or_number_field.
  replace (fields_at (<[l := delete "payload" (fields_at h l)]> h) l)
    with (delete "payload" (fields_at h l))
    by (unfold fields_at at 2, Heap; rewrite lookup_insert_eq; reflexivity).
  unfold Fields. rewrite lookup_delete_eq, lookup_delete_ne by congruence.
  destruct (fields_at h l !! key) as [[| | b | n | z | s | d | l' | l'] |]; reflexivity.
Qed.

End Resolver.

(* ===================================================================== *)
(** * The ChartConfig type                                               *)
(* ===================================================================== *)

Section Config_type.
Context {host : Host}.

(** C4, as the code has it.  The type admits an entry exactly when it does
    not set both [color] and [theme]: an entry with both is rejected, an
    entry with one of them is admitted, and so is an entry with neither,
    since [color] is optional in the first member of the union. *)
Theorem ChartConfig_entry_at_most_one (item : ChartItem) :
  (ChartConfig_entry item = true <-> ~ both_color_and_theme item)
  /\ (exactly_one_of_color_and_theme item -> ChartConfig_entry item = true)
  /\ (color item = None /\ theme item = None -> ChartConfig_entry item = true).
Proof.
  unfold ChartConfig_entry, direct_color_member, theme_member,
    both_color_and_theme, exactly_one_of_color_and_theme.
  destruct (color item) as [c |], (theme item) as [t |]; simpl;
    unfold is_Some; firstorder (eauto; congruence).
Qed.

End Config_type.

(* ===================================================================== *)
(** * Properties of ChartStyle                                           *)
(* ===================================================================== *)

Section Style.
Context {host : Host}.
Implicit Types (config : ChartConfig) (item : ChartItem) (id key themeName : string).

Lemma nonempty_false (s : string) : nonempty s = false <-> s = "".
Proof.
  unfold nonempty. rewrite negb_false_iff. apply String.eqb_eq.
Qed.

Lemma nonempty_true (s : string) : nonempty s = true <-> s <> "".
Proof.
  unfold nonempty. rewrite negb_true_iff. apply String.eqb_neq.
Qed.








End Style.

(* ===================================================================== *)
(** * Further properties of the resolver                                 *)
(* ===================================================================== *)

Section Resolver_further.
Context {host : Host}.
Implicit Types (config : ChartConfig) (key : string) (h : Heap).

(** On an object item the resolver returns [undefined] exactly when
    indexing the config gives nothing under the effective key and nothing
    under the literal key: the config has no entry of its own there and
    inherits no member of that name from [Object.prototype]. *)
Theorem resolver_undefined_iff config (l : loc) key h :
  getPayloadConfigFromPayload config (JObject l) key h = (Return None, h)
  <-> config_get config (Spec.effective_key h (fields_at h l) key) = None
      /\ config_get config key = None.
Proof.
  rewrite resolver_run. unfold Spec.resolve, Spec.lookup_with_fallback.
  destruct (config_get config (Spec.effective_key h (fields_at h l) key)).
  - split; [discriminate | intros [Habsurd _]; discriminate].
  - destruct (config_get config key).
    + split; [discriminate | intros [_ Habsurd]; discriminate].
    + split; auto.
Qed.

(** When [key] names a string or number field of the item, that field alone
    decides: two items that agree on it resolve alike, whatever their other
    fields and their nested payloads hold. *)
Theorem resolver_direct_field_decides config (l1 l2 : loc) key h1 h2 (v : JsValue) :
  is_Some (String_of_string_or_number v) ->
  fields_at h1 l1 !! key = Some v ->
  fields_at h2 l2 !! key = Some v ->
  fst (getPayloadConfigFromPayload config (JObject l1) key h1)
  = fst (getPayloadConfigFromPayload config (JObject l2) key h2).
Proof.
  intros [s Hs] Hfield1 Hfield2. rewrite !resolver_run. simpl. f_equal.
  unfold Spec.resolve, Spec.effective_key, Spec.string_or_number_field.
  rewrite Hfield1, Hfield2.
  destruct v; try discriminate Hs; reflexivity.
Qed.

(** Away from the names of [Object.prototype] the resolver returns entries
    of the config: when neither the effective key nor the literal key names
    a member the config inherits, the result is the entry under the
    effective key when the config has one, else the entry under the literal
    key when it has one, else [undefined]. *)
Theorem resolver_entries_unless_inherited config (l : loc) key h :
  inherited (Spec.effective_key h (fields_at h l) key) = false ->
  inherited key = false ->
  getPayloadConfigFromPayload config (JObject l) key h
  = (Return (Entry <$> Spec.resolve_entry config h (fields_at h l) key), h).
Proof.
  intros Heffective Hliteral. rewrite resolver_run. f_equal. f_equal.
  unfold Spec.resolve, Spec.resolve_entry, Spec.lookup_with_fallback,
    Spec.entry_with_fallback, config_get.
  rewrite Heffective, Hliteral.
  destruct (own_entry config (Spec.effective_key h (fields_at h l) key)); [reflexivity |].
  destruct (own_entry config key); reflexivity.
Qed.

End Resolver_further.

(* ===================================================================== *)
(** * Further properties of ChartStyle                                   *)
(* ===================================================================== *)

Section Style_further.
Context {host : Host}.
Implicit Types (config : ChartConfig) (item : ChartItem) (id key themeName : string).

Lemma css_variable_dropped themeName (entry : string * ChartItem) :
  theme_or_color (snd entry) = false -> css_variable themeName entry = None.
Proof.
  destruct entry as [key item]. simpl.
  unfold theme_or_color, css_variable, themed_color.
  destruct (theme item) as [t |]; [discriminate |].
  destruct (color item) as [c |]; [| reflexivity].
  intros ->. reflexivity.
Qed.

Lemma omap_step {A B} (f : A -> option B) (x : A) (l : list A) :
  omap f (x :: l) = match f x with Some y => y :: omap f l | None => omap f l end.
Proof. reflexivity. Qed.

Lemma css_variables_of_filtered themeName config :
  omap (css_variable themeName)
    (List.filter (fun entry => theme_or_color (snd entry)) config)
  = omap (css_variable themeName) config.
Proof.
  induction config as [| entry config IH]; [reflexivity |].
  cbn [List.filter]. destruct (theme_or_color (snd entry)) eqn:Hkept.
  - rewrite !omap_step, IH. reflexivity.
  - rewrite omap_step, (css_variable_dropped themeName entry Hkept). exact IH.
Qed.

(** The filter of [ChartStyle] decides between [null] and a style element
    and nothing more: the style element is the one the unfiltered config
    gives, since an entry the filter drops has no custom property under any
    theme. *)
Theorem ChartStyle_filter_only_decides_null id config (html : string) :
  ChartStyle id config = Some html ->
  html = join LF (map (theme_rule id config) THEMES).
Proof.
  unfold ChartStyle. destruct (Nat.eqb _ 0); [discriminate |].
  intros [= <-]. unfold theme_rule, THEMES. simpl.
  rewrite !css_variables_of_filtered. reflexivity.
Qed.

Lemma css_variable_without_theme themeName (entry : string * ChartItem) :
  theme (snd entry) = None ->
  css_variable themeName entry = color_property entry.
Proof.
  destruct entry as [key item]. simpl. intros Htheme.
  unfold css_variable, themed_color, color_property. rewrite Htheme. reflexivity.
Qed.

Lemma css_variables_without_theme themeName config :
  Forall (fun entry => theme (snd entry) = None) config ->
  omap (css_variable themeName) config = omap color_property config.
Proof.
  induction 1 as [| entry rest Hentry _ IH]; [reflexivity |].
  rewrite !omap_step, IH, (css_variable_without_theme themeName entry Hentry).
  reflexivity.
Qed.

(** When no entry of the config has a theme, the style element [ChartStyle]
    emits repeats under [.dark] what it declares for the light theme: the
    rules of the two themes differ in their selector alone, and the body of
    both declares, for each entry with a non-empty color, that color. *)
Theorem ChartStyle_same_rules_without_theme id config (html : string) :
  Forall (fun entry => theme (snd entry) = None) config ->
  ChartStyle id config = Some html ->
  html
  = join LF
      (map (fun themeEntry : string * string =>
              LF +:+ snd themeEntry +:+ " [data-chart=" +:+ id +:+ "] {" +:+ LF
                 +:+ join LF (omap color_property config) +:+ LF
                 +:+ "}" +:+ LF)
         THEMES).
Proof.
  intros Hno_theme. unfold ChartStyle. destruct (Nat.eqb _ 0); [discriminate |].
  intros [= <-]. unfold theme_rule, THEMES. cbn [map snd].
  rewrite !css_variables_of_filtered, !css_variables_without_theme by exact Hno_theme.
  reflexivity.
Qed.



End Style_further.

(* ===================================================================== *)
(** * Properties of the chart id                                         *)
(* ===================================================================== *)

Section Container_properties.
Context {host : Host}.

Lemma remove_colons_colon_free (s : string) : colon_free (remove_colons s).
Proof.
  unfold colon_free. induction s as [| c s IH]; simpl; [tauto |].
  destruct (Ascii.eqb_spec c ":"%char) as [-> | Hc]; [exact IH |].
  simpl. intros [Habsurd | Hin]; [congruence | exact (IH Hin)].
Qed.

Lemma remove_colons_fixed (s : string) : colon_free s -> remove_colons s = s.
Proof.
  unfold colon_free. induction s as [| c s IH]; simpl; [reflexivity |].
  intros Hfree. destruct (Ascii.eqb_spec c ":"%char) as [-> | Hc].
  - exfalso. apply Hfree. left. reflexivity.
  - f_equal. apply IH. intros Hin. apply Hfree. right. exact Hin.
Qed.

Lemma colon_free_chart_prefix (s : string) :
  colon_free ("chart-" +:+ s) <-> colon_free s.
Proof.
  unfold colon_free. simpl.
  split.
  - intros Hfree Hin. apply Hfree. do 6 right. exact Hin.
  - intros Hfree [H | [H | [H | [H | [H | [H | Hin]]]]]];
      try discriminate H. exact (Hfree Hin).
Qed.

(** The chart id is free of colons unless a non-empty [id] with a colon was
    passed: what [React.useId()] gave is stripped of its colons, what the
    caller passed is taken as it is. *)
Theorem chartId_colon_free_iff (id : option string) (uniqueId : string) :
  colon_free (chartId id uniqueId)
  <-> match id with
      | Some given => given = "" \/ colon_free given
      | None => True
      end.
Proof.
  unfold chartId. rewrite colon_free_chart_prefix.
  destruct id as [given |].
  - destruct (nonempty given) eqn:Hgiven.
    + apply nonempty_true in Hgiven. tauto.
    + apply nonempty_false in Hgiven.
      split; [auto | intros _; apply remove_colons_colon_free].
  - split; [auto | intros _; apply remove_colons_colon_free].
Qed.

(** Without an [id], a unique id that has no colon is used as it is. *)
Theorem chartId_keeps_colon_free_id (uniqueId : string) :
  colon_free uniqueId -> chartId None uniqueId = "chart-" +:+ uniqueId.
Proof.
  intros Hfree. unfold chartId. rewrite remove_colons_fixed by exact Hfree.
  reflexivity.
Qed.

End Container_properties.

(* ===================================================================== *)
(** * Properties of ChartLegendContent                                   *)
(* ===================================================================== *)

Section Legend_properties.
Context {host : Host}.
Variable ObjectToString : loc -> M string.
Implicit Types (config : ChartConfig) (h : Heap) (item : JsValue) (items : list JsValue).

Lemma bind_run {A B} (c : M A) (k : A -> M B) (a : A) (h h' : Heap) :
  c h = (Return a, h') -> bind c k h = k a h'.
Proof. intros Hc. unfold bind. rewrite Hc. reflexivity. Qed.

Lemma bind_throw {A B} (c : M A) (k : A -> M B) (e : JsError) (h h' : Heap) :
  c h = (Throw e, h') -> bind c k h = (Throw e, h').
Proof. intros Hc. unfold bind. rewrite Hc. reflexivity. Qed.

(** The key an item is resolved under, when [nameKey] is truthy or the
    [dataKey] of the item has its declared type. *)
Lemma legend_key_run (nameKey : option string) (l : loc) h :
  (exists name, nameKey = Some name /\ name <> "")
  \/ string_or_number_or_absent (fields_at h l !! "dataKey") = true ->
  (let* keyValue :=
     js_or (prop_value nameKey)
       (let* dataKey := js_get (JObject l) "dataKey" in
        js_or dataKey (ret (JString "value"))) in
   ToString ObjectToString keyValue) h
  = (Return (legend_lookup_key nameKey (fields_at h l)), h).
Proof.
  intros [(name & -> & Hname) | Htyped].
  - apply nonempty_true in Hname.
    unfold legend_lookup_key, bind, js_or, prop_value, ret.
    change (ToBoolean (JString name)) with (nonempty name).
    rewrite Hname. reflexivity.
  - unfold legend_lookup_key, nonempty, bind, js_or, js_get, prop_value, ret.
    destruct nameKey as [name |]; simpl;
      try (destruct (negb (String.eqb name "")); simpl; [reflexivity |]);
      destruct (fields_at h l !! "dataKey") as [[| | b | n | z | s | d | l' | l'] |];
      try discriminate Htyped; simpl;
      repeat match goal with
             | |- context [negb (String.eqb ?x "")] => destruct (negb (String.eqb x "")); simpl
             | |- context [NumberToBoolean ?x] => destruct (NumberToBoolean x); simpl
             end;
      reflexivity.
Qed.

(** The React key of an item of the declared type. *)
Lemma legend_react_key_run (l : loc) (index : nat) h :
  string_or_number_or_absent (fields_at h l !! "value") = true ->
  (let* value := js_get (JObject l) "value" in
   if ToBoolean value then js_String ObjectToString value
   else ret ("legend-item-" +:+ decimal (Z.of_nat index))) h
  = (Return (legend_react_key (fields_at h l) index), h).
Proof.
  intros Htyped. unfold legend_react_key, nonempty, bind, js_get, ret.
  destruct (fields_at h l !! "value") as [[| | b | n | z | s | d | l' | l'] |];
    try discriminate Htyped; simpl;
    repeat match goal with
           | |- context [negb (String.eqb ?x "")] => destruct (negb (String.eqb x "")); simpl
           | |- context [NumberToBoolean ?x] => destruct (NumberToBoolean x); simpl
           end;
    reflexivity.
Qed.

Lemma legend_object_run config (hideIcon : bool) (nameKey : option string)
    (l : loc) (index : nat) h :
  (exists name, nameKey = Some name /\ name <> "")
  \/ string_or_number_or_absent (fields_at h l !! "dataKey") = true ->
  string_or_number_or_absent (fields_at h l !! "value") = true ->
  legend_item ObjectToString config hideIcon nameKey (JObject l) index h
  = (Return (legend_rendering config hideIcon nameKey h (JObject l) index), h).
Proof.
  intros HdataKey Hvalue.
  unfold legend_item.
  pose proof (legend_key_run nameKey l h HdataKey) as Hkey.
  unfold bind at 1 in Hkey.
  destruct (js_or _ _ h) as [[keyValue | e] h1] eqn:HkeyValue; [| discriminate Hkey].
  rewrite (bind_run _ _ _ _ _ HkeyValue), (bind_run _ _ _ _ _ Hkey).
  rewrite (bind_run _ _ _ _ _ (resolver_run _ _ _ _)).
  pose proof (legend_react_key_run l index h Hvalue) as Hreact.
  unfold bind at 1 in Hreact.
  destruct (js_get (JObject l) "value" h) as [[value | e] h2] eqn:Hget; [| discriminate Hreact].
  rewrite (bind_run _ _ _ _ _ Hget), (bind_run _ _ _ _ _ Hreact).
  unfold legend_rendering, item_fields, swatch_of.
  destruct (icon_of (Spec.resolve config h (fields_at h l)
                       (legend_lookup_key nameKey (fields_at h l)))) as [component |];
    destruct hideIcon; reflexivity.
Qed.

Lemma legend_item_run config (hideIcon : bool) (nameKey : option string) item (index : nat) h :
  is_RechartsLegendPayload h item = true ->
  legend_item ObjectToString config hideIcon nameKey item index h
  = (Return (legend_rendering config hideIcon nameKey h item index), h).
Proof.
  intros Htyped.
  destruct item as [| | b | n | z | s | d | l | l]; try discriminate Htyped.
  apply andb_true_iff in Htyped as [HdataKey Hvalue].
  apply legend_object_run; auto.
Qed.

(** An item that is [null] or [undefined] makes the callback throw. *)
Lemma legend_item_null config (hideIcon : bool) (nameKey : option string) item (index : nat) h :
  item = JNull \/ item = JUndefined ->
  legend_item ObjectToString config hideIcon nameKey item index h
  = (Throw (TypeError "Cannot read properties of undefined or null"), h).
Proof.
  intros Hitem. unfold legend_item, js_or, prop_value.
  destruct nameKey as [name |].
  - change (ToBoolean (JString name)) with (nonempty name).
    destruct (nonempty name).
    + destruct Hitem as [-> | ->]; reflexivity.
    + destruct Hitem as [-> | ->]; reflexivity.
  - destruct Hitem as [-> | ->]; reflexivity.
Qed.

Lemma map_indexed_run {A B} (f : A -> nat -> M B) (g : A -> nat -> B) (items : list A) h :
  Forall (fun x => forall index, f x index h = (Return (g x index), h)) items ->
  forall index, map_indexed f items index h = (Return (indexed g items index), h).
Proof.
  induction 1 as [| x rest Hitem _ IH]; intros index; [reflexivity |].
  simpl. rewrite (bind_run _ _ _ _ _ (Hitem index)).
  rewrite (bind_run _ _ _ _ _ (IH (S index))). reflexivity.
Qed.

Lemma map_indexed_throw {A B} (f : A -> nat -> M B) (g : A -> nat -> B)
    (before after : list A) (x : A) (e : JsError) h :
  Forall (fun y => forall index, f y index h = (Return (g y index), h)) before ->
  (forall index, f x index h = (Throw e, h)) ->
  forall index, map_indexed f (before ++ x :: after)%list index h = (Throw e, h).
Proof.
  induction 1 as [| first rest Hfirst _ IH]; intros Hitem index; simpl.
  - rewrite (bind_throw _ _ _ _ _ (Hitem index)). reflexivity.
  - rewrite (bind_run _ _ _ _ _ (Hfirst index)).
    rewrite (bind_throw _ _ _ _ _ (IH Hitem (S index))). reflexivity.
Qed.

Lemma indexed_length {A B} (g : A -> nat -> B) (items : list A) (index : nat) :
  length (indexed g items index) = length items.
Proof.
  revert index. induction items as [| x rest IH]; intros index; simpl; auto.
Qed.

Lemma indexed_lookup {A B} (g : A -> nat -> B) (items : list A) (index i : nat) :
  indexed g items index !! i = (fun x => g x (index + i)) <$> items !! i.
Proof.
  revert index i. induction items as [| x rest IH]; intros index i; [reflexivity |].
  destruct i as [| i]; simpl.
  - rewrite Nat.add_0_r. reflexivity.
  - rewrite IH. rewrite Nat.add_succ_r. reflexivity.
Qed.

(** The run of the legend below a provider, on items of the declared
    type. *)
Lemma ChartLegendContent_run (chart : ChartContextProps) (className : option string)
    (hideIcon : option bool) items (verticalAlign nameKey : option string) h :
  Forall (fun item => is_RechartsLegendPayload h item = true) items ->
  ChartLegendContent ObjectToString (Some chart) className hideIcon (Some items)
    verticalAlign nameKey h
  = (Return
       match items with
       | [] => None
       | _ =>
           Some {| legend_classes :=
                     [Some "flex items-center justify-center gap-4";
                      Some (if String.eqb (default "bottom" verticalAlign) "top"
                            then "pb-3" else "pt-3");
                      className];
                   legend_items :=
                     indexed (legend_rendering (config chart) (default false hideIcon) nameKey h)
                       items 0 |}
       end, h).
Proof.
  intros Htyped. unfold ChartLegendContent, useChart.
  rewrite (bind_run _ _ chart h h) by reflexivity.
  destruct items as [| item rest]; [reflexivity |].
  rewrite (bind_run _ _ _ _ _
             (map_indexed_run _ (legend_rendering (config chart) (default false hideIcon) nameKey h)
                _ h (Forall_impl _ _ _ Htyped
                       (fun item Hitem index =>
                          legend_item_run (config chart) _ nameKey item index h Hitem)) 0)).
  reflexivity.
Qed.

Lemma decimal_inj (z1 z2 : Z) : decimal z1 = decimal z2 -> z1 = z2.
Proof.
  assert (Hparse : forall z, NilZero.int_of_string (decimal z) = Some (Z.to_int z)).
  { intros z. unfold decimal. apply NilZero.isi.
    - destruct z as [| p | p]; simpl; try discriminate.
      intros [= Hnil]. exact (DecimalPos.Unsigned.to_uint_nonnil p Hnil).
    - destruct z as [| p | p]; simpl; try discriminate.
      intros [= Hnil]. exact (DecimalPos.Unsigned.to_uint_nonnil p Hnil). }
  intros Heq. apply DecimalZ.to_int_inj.
  pose proof (Hparse z1) as H1. rewrite Heq, Hparse in H1. congruence.
Qed.

(** Where there is no chart context the legend throws the error of
    [useChart] before it looks at its payload: also when the payload is
    absent or empty, and also when it holds items the legend would choke
    on. *)
Theorem legend_outside_container_throws (className : option string) (hideIcon : option bool)
    (payload : option (list JsValue)) (verticalAlign nameKey : option string) h :
  ChartLegendContent ObjectToString None className hideIcon payload verticalAlign nameKey h
  = (Throw (Error "useChart must be used within a <ChartContainer />"), h).
Proof. reflexivity. Qed.

(** Below a provider and on items of the declared type the legend returns
    and leaves the heap alone.  It renders [null] exactly when there is no
    item, and otherwise one legend item for each item of the payload. *)
Theorem legend_renders_each_item (chart : ChartContextProps) (className : option string)
    (hideIcon : option bool) items (verticalAlign nameKey : option string) h :
  Forall (fun item => is_RechartsLegendPayload h item = true) items ->
  exists result : option LegendElement,
    ChartLegendContent ObjectToString (Some chart) className hideIcon (Some items)
      verticalAlign nameKey h = (Return result, h)
    /\ (result = None <-> items = [])
    /\ (forall element, result = Some element ->
          length (legend_items element) = length items).
Proof.
  intros Htyped. rewrite ChartLegendContent_run by exact Htyped.
  eexists. split; [reflexivity |].
  destruct items as [| item rest].
  - split; [tauto | discriminate].
  - split; [split; discriminate |].
    intros element [= <-]. exact (indexed_length _ (item :: rest) 0).
Qed.

(** The legend item of a payload item shows the config entry the resolver
    picks for that item under [nameKey], or under the item's [dataKey], or
    under ["value"]: its label is the label of the entry, and its mark is
    the icon of the entry unless [hideIcon] is set or the entry has none,
    and then a swatch in the color of the item. *)
Theorem legend_item_shows_resolved_entry (chart : ChartContextProps)
    (className : option string) (hideIcon : option bool) items
    (verticalAlign nameKey : option string) h (i : nat) (l : loc)
    (itemConfig : option ConfigValue) :
  Forall (fun item => is_RechartsLegendPayload h item = true) items ->
  items !! i = Some (JObject l) ->
  getPayloadConfigFromPayload (config chart) (JObject l)
    (legend_lookup_key nameKey (fields_at h l)) h = (Return itemConfig, h) ->
  exists (element : LegendElement) (rendered : LegendItem),
    ChartLegendContent ObjectToString (Some chart) className hideIcon (Some items)
      verticalAlign nameKey h = (Return (Some element), h)
    /\ legend_items element !! i = Some rendered
    /\ item_label rendered = label_of itemConfig
    /\ item_mark rendered
       = match icon_of itemConfig with
         | Some component =>
             if default false hideIcon then swatch_of (fields_at h l)
             else LegendIcon component
         | None => swatch_of (fields_at h l)
         end.
Proof.
  intros Htyped Hitem Hresolved.
  rewrite resolver_run in Hresolved. injection Hresolved as <-.
  rewrite ChartLegendContent_run by exact Htyped.
  destruct items as [| first rest]; [discriminate Hitem |].
  eexists. eexists. split; [reflexivity |]. cbn [legend_items].
  rewrite indexed_lookup, Hitem. split; [reflexivity |].
  unfold legend_rendering, item_fields. cbn [item_label item_mark]. split; reflexivity.
Qed.

Lemma ChartLegendContent_null_item (chart : ChartContextProps) (className : option string)
    (hideIcon : option bool) (before after : list JsValue) item
    (verticalAlign nameKey : option string) h :
  Forall (fun item => is_RechartsLegendPayload h item = true) before ->
  item = JNull \/ item = JUndefined ->
  ChartLegendContent ObjectToString (Some chart) className hideIcon
    (Some (before ++ item :: after)%list) verticalAlign nameKey h
  = (Throw (TypeError "Cannot read properties of undefined or null"), h).
Proof.
  intros Htyped Hnull. unfold ChartLegendContent, useChart.
  rewrite (bind_run _ _ chart h h) by reflexivity.
  assert (Hthrow :
    map_indexed (legend_item ObjectToString (config chart) (default false hideIcon) nameKey)
      (before ++ item :: after)%list 0 h
    = (Throw (TypeError "Cannot read properties of undefined or null"), h)).
  { apply (map_indexed_throw _
             (legend_rendering (config chart) (default false hideIcon) nameKey h)).
    - apply (Forall_impl _ _ _ Htyped). intros x Hx index. apply legend_item_run. exact Hx.
    - intros index. apply legend_item_null. exact Hnull. }
  destruct (before ++ item :: after)%list as [| first rest] eqn:Hitems.
  - destruct before; discriminate Hitems.
  - rewrite (bind_throw _ _ _ _ _ Hthrow). reflexivity.
Qed.

(** An item that is [null] or [undefined] makes the legend throw a
    TypeError, though the resolver would have taken it: the legend reads the
    fields of the item itself. *)
Theorem legend_null_item_throws (chart : ChartContextProps) (className : option string)
    (hideIcon : option bool) (before after : list JsValue) item
    (verticalAlign nameKey : option string) h :
  Forall (fun item => is_RechartsLegendPayload h item = true) before ->
  item = JNull \/ item = JUndefined ->
  ChartLegendContent ObjectToString (Some chart) className hideIcon
    (Some (before ++ item :: after)%list) verticalAlign nameKey h
  = (Throw (TypeError "Cannot read properties of undefined or null"), h).
Proof. apply ChartLegendContent_null_item. Qed.

(** Two items without a truthy [value] get different React keys: each is
    keyed by its position. *)
Theorem legend_position_keys_distinct (chart : ChartContextProps) (className : option string)
    (hideIcon : option bool) items (verticalAlign nameKey : option string) h
    (i j : nat) (li lj : loc) :
  Forall (fun item => is_RechartsLegendPayload h item = true) items ->
  items !! i = Some (JObject li) ->
  items !! j = Some (JObject lj) ->
  ToBoolean (default JUndefined (fields_at h li !! "value")) = false ->
  ToBoolean (default JUndefined (fields_at h lj !! "value")) = false ->
  i <> j ->
  exists (element : LegendElement) (first second : LegendItem),
    ChartLegendContent ObjectToString (Some chart) className hideIcon (Some items)
      verticalAlign nameKey h = (Return (Some element), h)
    /\ legend_items element !! i = Some first
    /\ legend_items element !! j = Some second
    /\ item_key first <> item_key second.
Proof.
  intros Htyped Hi Hj Hvi Hvj Hij.
  rewrite ChartLegendContent_run by exact Htyped.
  destruct items as [| head rest]; [discriminate Hi |].
  eexists. eexists. eexists. split; [reflexivity |]. cbn [legend_items].
  rewrite !indexed_lookup, Hi, Hj. split; [reflexivity |]. split; [reflexivity |].
  unfold legend_rendering, item_fields. cbn [item_key].
  assert (Hkey : forall (l : loc) (index : nat),
            ToBoolean (default JUndefined (fields_at h l !! "value")) = false ->
            legend_react_key (fields_at h l) index
            = "legend-item-" +:+ decimal (Z.of_nat index)).
  { intros l index Hfalsy. unfold legend_react_key, nonempty.
    destruct (fields_at h l !! "value") as [[| | b | n | z | s | d | l' | l'] |];
      simpl in Hfalsy; try reflexivity; rewrite Hfalsy; reflexivity. }
  rewrite (Hkey li _ Hvi), (Hkey lj _ Hvj). simpl.
  intros [= Heq]. apply decimal_inj in Heq. lia.
Qed.

(** With a non-empty [nameKey] the callback never converts the [dataKey] of
    the item: an item whose [dataKey] is a function, an object or a symbol
    renders all the same, resolved under [nameKey]. *)
Theorem legend_nameKey_skips_dataKey config (hideIcon : bool) (name : string)
    (l : loc) (index : nat) h :
  name <> "" ->
  string_or_number_or_absent (fields_at h l !! "value") = true ->
  exists (rendered : LegendItem) (itemConfig : option ConfigValue),
    legend_item ObjectToString config hideIcon (Some name) (JObject l) index h
    = (Return rendered, h)
    /\ getPayloadConfigFromPayload config (JObject l) name h = (Return itemConfig, h)
    /\ item_label rendered = label_of itemConfig.
Proof.
  intros Hname Hvalue.
  rewrite legend_object_run by (auto; left; eauto).
  rewrite resolver_run. eexists. eexists. split; [reflexivity |]. split; [reflexivity |].
  unfold legend_rendering, item_fields, legend_lookup_key. cbn [item_label].
  apply nonempty_true in Hname. rewrite Hname. reflexivity.
Qed.

End Legend_properties.

(* ===================================================================== *)
(** * Properties of ChartTooltipContent                                  *)
(* ===================================================================== *)

Section Tooltip_properties.
Context {host : Host}.
Variable ObjectToString : loc -> M string.
Variable node_string : ReactNode -> option string.
Variable node_truthy : ReactNode -> bool.
Variable toLocaleString : JsValue -> M string.
Implicit Types (config : ChartConfig) (h : Heap) (item : JsValue) (items : list JsValue).
Implicit Types (localized : JsValue -> string).

Ltac split_conditions :=
  repeat (simpl;
          match goal with
          | H : negb (String.eqb ?x "") = _ |- _ => rewrite H
          | H : NumberToBoolean ?x = _ |- _ => rewrite H
          | |- context [negb (String.eqb ?x "")] =>
              is_var x; destruct (negb (String.eqb x "")) eqn:?
          | |- context [negb (String.eqb (NumberToString ?n) "")] =>
              destruct (negb (String.eqb (NumberToString n) "")) eqn:?
          | |- context [NumberToBoolean ?x] => destruct (NumberToBoolean x) eqn:?
          end);
  simpl; try reflexivity.

(** The key a row is resolved under. *)
Lemma tooltip_key_run (nameKey : option string) (l : loc) h :
  string_or_number_or_absent (fields_at h l !! "dataKey") = true ->
  string_or_number_or_absent (fields_at h l !! "name") = true ->
  (let* keyValue :=
     js_or (prop_value nameKey)
       (let* name := js_get (JObject l) "name" in
        let* named :=
          js_or name
            (let* dataKey := js_get (JObject l) "dataKey" in js_or dataKey (ret (JString ""))) in
        let* text := js_String ObjectToString named in
        js_or (JString text) (ret (JString "value"))) in
   ToString ObjectToString keyValue) h
  = (Return (tooltip_lookup_key nameKey (fields_at h l)), h).
Proof.
  intros HdataKey Hname.
  unfold tooltip_lookup_key, truthy_text, first_of, nonempty, bind, js_or, js_get,
    prop_value, ret.
  destruct nameKey as [name |]; simpl;
    try (destruct (negb (String.eqb name "")); simpl; [reflexivity |]);
    (destruct (fields_at h l !! "name") as [[| | b | n | z | s | d | l' | l'] |];
     [try discriminate Hname ..]);
    split_conditions;
    (destruct (fields_at h l !! "dataKey") as [[| | b' | n' | z' | s' | d' | l'' | l''] |];
     [try discriminate HdataKey ..]);
    split_conditions.
Qed.

(** The color of the indicator of a row. *)
Lemma tooltip_color_run (color : option string) (l : loc) h :
  (let* indicatorColor :=
     js_or (prop_value color)
       (let* inner := js_get (JObject l) "payload" in
        let* fill := js_get_optional inner "fill" in
        js_or fill (js_get (JObject l) "color")) in
   ret indicatorColor) h
  = (Return (tooltip_indicator_color color h (fields_at h l)), h).
Proof.
  unfold tooltip_indicator_color, nonempty, bind, js_or, js_get_optional, js_get,
    prop_value, ret.
  destruct color as [c |]; simpl;
    try (destruct (negb (String.eqb c "")); simpl; [reflexivity |]);
    destruct (fields_at h l !! "payload") as [[| | b | n | z | s | d | l' | l'] |];
    simpl; try reflexivity;
    try (destruct (ToBoolean (default JUndefined (fields_at h l' !! "fill"))); reflexivity).
Qed.

(** The React key of a row. *)
Lemma tooltip_react_key_run (l : loc) (index : nat) h :
  string_or_number_or_absent (fields_at h l !! "dataKey") = true ->
  (let* dataKey := js_get (JObject l) "dataKey" in
   if ToBoolean dataKey then js_String ObjectToString dataKey
   else ret ("item-" +:+ decimal (Z.of_nat index))) h
  = (Return (tooltip_react_key (fields_at h l) index), h).
Proof.
  intros Htyped. unfold tooltip_react_key, truthy_text, nonempty, bind, js_get, ret.
  destruct (fields_at h l !! "dataKey") as [[| | b | n | z | s | d | l' | l'] |];
    try discriminate Htyped; split_conditions.
Qed.

Lemma bind_inv {A B} (c : M A) (k : A -> M B) (b : B) (h h' : Heap) :
  bind c k h = (Return b, h') ->
  exists (a : A) (h1 : Heap), c h = (Return a, h1) /\ k a h1 = (Return b, h').
Proof.
  unfold bind. destruct (c h) as [[a | e] h1]; [eauto | discriminate].
Qed.

(** The row of an item of the declared type, when there is no
    [formatter]. *)
Lemma tooltip_row_run localized config (indicator : string) (hideIndicator : bool)
    (color nameKey : option string) (nestLabel : bool) (nested : option TooltipLabel)
    item (index : nat) h :
  is_tooltip_Payload h item = true ->
  value_localized toLocaleString localized h item ->
  tooltip_row ObjectToString node_truthy toLocaleString config indicator hideIndicator
    None color nameKey nestLabel nested item index h
  = (Return (tooltip_row_rendering node_truthy localized config indicator hideIndicator
               color nameKey nestLabel nested h item index), h).
Proof.
  intros Htyped Hlocalized.
  destruct item as [| | b | n | z | s | d | l | l]; try discriminate Htyped.
  unfold value_localized, item_fields in Hlocalized. cbv zeta in Hlocalized.
  apply andb_true_iff in Htyped as [HdataKey Hname].
  unfold tooltip_row.
  destruct (bind_inv _ _ _ _ _ (tooltip_key_run nameKey l h HdataKey Hname))
    as (keyValue & h1 & HkeyValue & Hkey).
  rewrite (bind_run _ _ _ _ _ HkeyValue), (bind_run _ _ _ _ _ Hkey).
  rewrite (bind_run _ _ _ _ _ (resolver_run _ _ _ _)).
  destruct (bind_inv _ _ _ _ _ (tooltip_color_run color l h))
    as (indicatorColor & h2 & Hcolor & Hret).
  injection Hret as -> ->.
  rewrite (bind_run _ _ _ _ _ Hcolor).
  destruct (bind_inv _ _ _ _ _ (tooltip_react_key_run l index h HdataKey))
    as (dataKey & h3 & Hget & Hreact).
  rewrite (bind_run _ _ _ _ _ Hget), (bind_run _ _ _ _ _ Hreact).
  unfold tooltip_row_rendering, tooltip_mark, tooltip_name, tooltip_value, item_fields.
  assert (Hcell :
    (let* value := js_get (JObject l) "value" in
     let* cell :=
       if ToBoolean value then
         let* text := toLocaleString value in
         ret (ValueSpan text)
       else ret (ValueAsIs value) in
     ret cell) h
    = (Return (if ToBoolean (default JUndefined (fields_at h l !! "value"))
               then ValueSpan (localized (default JUndefined (fields_at h l !! "value")))
               else ValueAsIs (default JUndefined (fields_at h l !! "value"))), h)).
  { unfold bind at 1. unfold js_get.
    destruct (ToBoolean (default JUndefined (fields_at h l !! "value"))) eqn:Htruthy.
    - rewrite (bind_run _ _ _ _ _ (bind_run _ _ _ _ _ (Hlocalized eq_refl)
                                   : bind _ _ h = (Return (ValueSpan _), h)))
        by reflexivity.
      reflexivity.
    - reflexivity. }
  unfold bind, js_get, ret in Hcell |- *.
  destruct (label_of (Spec.resolve config h (fields_at h l)
                        (tooltip_lookup_key nameKey (fields_at h l)))) as [node |];
    [destruct (node_truthy node) |];
    destruct (ToBoolean (default JUndefined (fields_at h l !! "value")));
    try reflexivity;
    destruct (toLocaleString (default JUndefined (fields_at h l !! "value")) h)
      as [[text | e] h4]; try discriminate Hcell;
    injection Hcell as -> ->; reflexivity.
Qed.

(** The key the label is resolved under. *)
Lemma label_key_run (labelKey : option string) (l : loc) h :
  string_or_number_or_absent (fields_at h l !! "dataKey") = true ->
  string_or_number_or_absent (fields_at h l !! "name") = true ->
  (let* keyValue :=
     js_or (prop_value labelKey)
       (let* dataKey := js_get_optional (JObject l) "dataKey" in
        js_or dataKey
          (let* name := js_get_optional (JObject l) "name" in
           js_or name (ret (JString "value")))) in
   ToString ObjectToString keyValue) h
  = (Return (label_lookup_key labelKey (fields_at h l)), h).
Proof.
  intros HdataKey Hname.
  unfold label_lookup_key, truthy_text, first_of, nonempty, bind, js_or, js_get_optional,
    js_get, prop_value, ret.
  destruct labelKey as [name |]; simpl;
    try (destruct (negb (String.eqb name "")); simpl; [reflexivity |]);
    (destruct (fields_at h l !! "dataKey") as [[| | b' | n' | z' | s' | d' | l'' | l''] |];
     [try discriminate HdataKey ..]);
    split_conditions;
    (destruct (fields_at h l !! "name") as [[| | b | n | z | s | d | l' | l'] |];
     [try discriminate Hname ..]);
    split_conditions.
Qed.

(** The value the label is made from. *)
Lemma label_value_cases config (labelKey : option string) (label_prop : option ReactNode)
    h (fields : Fields) :
  match
    (if ToBoolean (prop_value labelKey) then None
     else match label_prop with Some node => node_string node | None => None end)
  with
  | Some text =>
      match label_of (config_get config text) with
      | Some node => if node_truthy node then Some node else label_prop
      | None => label_prop
      end
  | None => label_of (Spec.resolve config h fields (label_lookup_key labelKey fields))
  end
  = tooltip_label_value node_string node_truthy config labelKey label_prop h fields.
Proof.
  unfold tooltip_label_value, string_label_node.
  destruct (ToBoolean (prop_value labelKey)); [reflexivity |].
  destruct label_prop as [node |]; [| reflexivity].
  destruct (node_string node) as [text |]; [| reflexivity].
  destruct (label_of (config_get config text)) as [configured |]; [| reflexivity].
  destruct (node_truthy configured); reflexivity.
Qed.

(** The label on a payload whose first item has the declared type. *)
Lemma tooltipLabel_run config (labelKey : option string) (label_prop : option ReactNode)
    (labelFormatter : option (option ReactNode -> list JsValue -> M ReactNode))
    (labelClassName : option string) (l : loc) (others : list JsValue) h :
  is_tooltip_Payload h (JObject l) = true ->
  tooltipLabel ObjectToString node_string node_truthy config false
    (Some (JObject l :: others)) labelKey label_prop labelFormatter labelClassName h
  = match labelFormatter with
    | Some format =>
        (let* content :=
           format (tooltip_label_value node_string node_truthy config labelKey label_prop
                     h (fields_at h l))
             (JObject l :: others) in
         ret (Some {| label_classes := [Some "font-medium"; labelClassName];
                      label_content := content |})) h
    | None =>
        (Return (tooltip_label_rendering node_string node_truthy config false
                   (JObject l :: others) labelKey label_prop labelClassName h), h)
    end.
Proof.
  intros Htyped. apply andb_true_iff in Htyped as [HdataKey Hname].
  unfold tooltipLabel. cbn [ToBoolean negb].
  destruct (bind_inv _ _ _ _ _ (label_key_run labelKey l h HdataKey Hname))
    as (keyValue & h1 & HkeyValue & Hkey).
  rewrite (bind_run _ _ _ _ _ HkeyValue), (bind_run _ _ _ _ _ Hkey).
  rewrite (bind_run _ _ _ _ _ (resolver_run _ _ _ _)).
  rewrite label_value_cases.
  destruct labelFormatter as [format |]; [reflexivity |].
  unfold tooltip_label_rendering, item_fields. cbn [ToBoolean negb].
  destruct (tooltip_label_value node_string node_truthy config labelKey label_prop h
              (fields_at h l)) as [node |]; [| reflexivity].
  destruct (node_truthy node); reflexivity.
Qed.

(** The label when it is hidden or there is nothing to label. *)
Lemma tooltipLabel_hidden config (hideLabel : bool) (payload : option (list JsValue))
    (labelKey : option string) (label_prop : option ReactNode)
    (labelFormatter : option (option ReactNode -> list JsValue -> M ReactNode))
    (labelClassName : option string) h :
  hideLabel = true \/ payload = None \/ payload = Some [] ->
  tooltipLabel ObjectToString node_string node_truthy config hideLabel payload labelKey
    label_prop labelFormatter labelClassName h = (Return None, h).
Proof.
  unfold tooltipLabel.
  intros [-> | [-> | ->]]; try reflexivity.
  destruct payload as [[| item others] |]; reflexivity.
Qed.

(** The label on items of the declared type, without a [labelFormatter]. *)
Lemma tooltipLabel_typed_run config (hideLabel : bool) items (labelKey : option string)
    (label_prop : option ReactNode) (labelClassName : option string) h :
  Forall (fun item => is_tooltip_Payload h item = true) items ->
  tooltipLabel ObjectToString node_string node_truthy config hideLabel (Some items)
    labelKey label_prop None labelClassName h
  = (Return (tooltip_label_rendering node_string node_truthy config hideLabel items
               labelKey label_prop labelClassName h), h).
Proof.
  intros Htyped. destruct items as [| first others].
  - apply tooltipLabel_hidden. auto.
  - destruct hideLabel.
    + apply tooltipLabel_hidden. auto.
    + inversion Htyped as [| ? ? Hfirst _]; subst.
      destruct first as [| | b | n | z | s | d | l | l]; try discriminate Hfirst.
      apply (tooltipLabel_run _ _ _ None). exact Hfirst.
Qed.

(** The run of the tooltip below a provider, without a [formatter], on
    items of the declared type whose values [toLocaleString] formats, when
    the label has been computed. *)
Lemma ChartTooltipContent_run localized (chart : ChartContextProps) (active : option bool)
    items (className indicator : option string) (hideLabel hideIndicator : option bool)
    (label_prop : option ReactNode)
    (labelFormatter : option (option ReactNode -> list JsValue -> M ReactNode))
    (labelClassName color nameKey labelKey : option string)
    (shown : option TooltipLabel) h :
  Forall (fun item => is_tooltip_Payload h item = true) items ->
  Forall (value_localized toLocaleString localized h) items ->
  tooltipLabel ObjectToString node_string node_truthy (config chart)
    (default false hideLabel) (Some items) labelKey label_prop labelFormatter
    labelClassName h = (Return shown, h) ->
  ChartTooltipContent ObjectToString node_string node_truthy toLocaleString (Some chart)
    active (Some items) className indicator hideLabel hideIndicator label_prop
    labelFormatter labelClassName None color nameKey labelKey h
  = (Return
       (if default false active then
          match items with
          | [] => None
          | _ =>
              Some {| tooltip_className := className;
                      tooltip_label := if nests_label items indicator then None else shown;
                      tooltip_rows :=
                        indexed
                          (tooltip_row_rendering node_truthy localized (config chart)
                             (default "dot" indicator) (default false hideIndicator) color
                             nameKey (nests_label items indicator) shown h)
                          items 0 |}
          end
        else None), h).
Proof.
  intros Htyped Hlocalized Hshown. unfold ChartTooltipContent, useChart.
  rewrite (bind_run _ _ chart h h) by reflexivity.
  rewrite (bind_run _ _ _ _ _ Hshown).
  destruct (default false active); [| reflexivity].
  destruct items as [| first others] eqn:Hitems; [reflexivity |].
  rewrite <- Hitems in *.
  assert (Hboth : Forall (fun item => is_tooltip_Payload h item = true
                                      /\ value_localized toLocaleString localized h item)
                    items)
    by (apply Forall_and; split; assumption).
  rewrite (bind_run _ _ _ _ _
             (map_indexed_run _ _ _ h
                (Forall_impl _ _ _ Hboth
                   (fun item Hitem index =>
                      tooltip_row_run localized (config chart) _ _ color nameKey _ _ item
                        index h (proj1 Hitem) (proj2 Hitem)))
                0)).
  rewrite Hitems. reflexivity.
Qed.

(** Where there is no chart context the legend and the tooltip throw the
    error of [useChart] before they look at their props: also when there is
    nothing to render, and also when the payload holds items they would
    choke on. *)
Theorem consumers_throw_outside_container (payload : option (list JsValue))
    (active : option bool) (className indicator verticalAlign : option string)
    (hideIcon hideLabel hideIndicator : option bool) (label_prop : option ReactNode)
    (labelFormatter : option (option ReactNode -> list JsValue -> M ReactNode))
    (formatter : option (JsValue -> JsValue -> JsValue -> nat -> JsValue -> M ReactNode))
    (labelClassName color nameKey labelKey : option string) h :
  ChartLegendContent ObjectToString None className hideIcon payload verticalAlign nameKey h
  = (Throw (Error "useChart must be used within a <ChartContainer />"), h)
  /\ ChartTooltipContent ObjectToString node_string node_truthy toLocaleString None
       active payload className indicator hideLabel hideIndicator label_prop labelFormatter
       labelClassName formatter color nameKey labelKey h
     = (Throw (Error "useChart must be used within a <ChartContainer />"), h).
Proof. split; reflexivity. Qed.

(** The label is computed before the tooltip asks whether it is active: a
    [labelFormatter] that throws makes the tooltip throw, active or not. *)
Theorem tooltip_inactive_runs_labelFormatter (chart : ChartContextProps)
    (active : option bool) (l : loc) (others : list JsValue)
    (className indicator : option string) (hideLabel hideIndicator : option bool)
    (label_prop : option ReactNode)
    (format : option ReactNode -> list JsValue -> M ReactNode)
    (formatter : option (JsValue -> JsValue -> JsValue -> nat -> JsValue -> M ReactNode))
    (labelClassName color nameKey labelKey : option string) (e : JsError) h h' :
  is_tooltip_Payload h (JObject l) = true ->
  default false hideLabel = false ->
  (forall value, format value (JObject l :: others) h = (Throw e, h')) ->
  ChartTooltipContent ObjectToString node_string node_truthy toLocaleString (Some chart)
    active (Some (JObject l :: others)) className indicator hideLabel hideIndicator
    label_prop (Some format) labelClassName formatter color nameKey labelKey h
  = (Throw e, h').
Proof.
  intros Htyped Hhide Hformat. unfold ChartTooltipContent, useChart.
  rewrite (bind_run _ _ chart h h) by reflexivity.
  rewrite Hhide.
  apply bind_throw.
  rewrite (tooltipLabel_run _ _ _ (Some format)) by exact Htyped.
  apply bind_throw. apply Hformat.
Qed.

(** Below a provider and without the two formatters, on items of the
    declared type whose truthy values [toLocaleString] formats, the tooltip
    returns and leaves the heap alone.  It renders [null] exactly when it
    is not active or has no item, and otherwise one row for each item. *)
Theorem tooltip_renders_each_item localized (chart : ChartContextProps)
    (active : option bool) items
    (className indicator : option string) (hideLabel hideIndicator : option bool)
    (label_prop : option ReactNode) (labelClassName color nameKey labelKey : option string) h :
  Forall (fun item => is_tooltip_Payload h item = true) items ->
  Forall (value_localized toLocaleString localized h) items ->
  exists result : option TooltipElement,
    ChartTooltipContent ObjectToString node_string node_truthy toLocaleString (Some chart)
      active (Some items) className indicator hideLabel hideIndicator label_prop None
      labelClassName None color nameKey labelKey h = (Return result, h)
    /\ (result = None <-> default false active = false \/ items = [])
    /\ (forall element, result = Some element ->
          length (tooltip_rows element) = length items).
Proof.
  intros Htyped Hlocalized.
  rewrite (ChartTooltipContent_run localized chart active items className indicator
             hideLabel hideIndicator label_prop None labelClassName color nameKey labelKey
             _ h Htyped Hlocalized
             (tooltipLabel_typed_run (config chart) (default false hideLabel) items labelKey
                label_prop labelClassName h Htyped)).
  eexists. split; [reflexivity |].
  destruct (default false active).
  - destruct items as [| item rest].
    + split; [split; auto | discriminate].
    + split.
      * split; [discriminate | intros [Habsurd | Habsurd]; discriminate].
      * intros element [= <-]. exact (indexed_length _ (item :: rest) 0).
  - split; [split; auto | discriminate].
Qed.

Lemma Forall_indexed {A B} (g : A -> nat -> B) (P : B -> Prop) (l : list A) :
  (forall x index, P (g x index)) -> forall index, Forall P (indexed g l index).
Proof.
  intros Hg. induction l as [| x rest IH]; intros index; simpl; constructor; auto.
Qed.

(** Without a [formatter] the label of the tooltip, computed with or
    without a [labelFormatter], is shown in one place: nested in the row
    when there is one item and the indicator is not the dot, above the rows
    otherwise. *)
Theorem tooltip_label_in_one_place localized (chart : ChartContextProps) items
    (className indicator : option string) (hideLabel hideIndicator : option bool)
    (label_prop : option ReactNode)
    (labelFormatter : option (option ReactNode -> list JsValue -> M ReactNode))
    (labelClassName color nameKey labelKey : option string)
    (shown : option TooltipLabel) h :
  Forall (fun item => is_tooltip_Payload h item = true) items ->
  Forall (value_localized toLocaleString localized h) items ->
  items <> [] ->
  tooltipLabel ObjectToString node_string node_truthy (config chart)
    (default false hideLabel) (Some items) labelKey label_prop labelFormatter
    labelClassName h
  = (Return shown, h) ->
  exists element : TooltipElement,
    ChartTooltipContent ObjectToString node_string node_truthy toLocaleString (Some chart)
      (Some true) (Some items) className indicator hideLabel hideIndicator label_prop
      labelFormatter labelClassName None color nameKey labelKey h
    = (Return (Some element), h)
    /\ if nests_label items indicator
       then tooltip_label element = None
            /\ Forall (fun row => nested_label row = shown) (tooltip_rows element)
       else tooltip_label element = shown
            /\ Forall (fun row => nested_label row = None) (tooltip_rows element).
Proof.
  intros Htyped Hlocalized Hitems Hshown.
  rewrite (ChartTooltipContent_run localized chart (Some true) items className indicator
             hideLabel hideIndicator label_prop labelFormatter labelClassName color nameKey
             labelKey shown h Htyped Hlocalized Hshown).
  cbn [default from_option id].
  destruct items as [| first others] eqn:Heq; [congruence |]. rewrite <- Heq in *.
  eexists. split; [reflexivity |]. cbn [tooltip_label tooltip_rows].
  destruct (nests_label items indicator); (split; [reflexivity |]);
    apply Forall_indexed; intros x index; reflexivity.
Qed.

(** The row of an item the [formatter] applies to. *)
Lemma tooltip_row_formatted config (indicator : string) (hideIndicator : bool)
    (format : JsValue -> JsValue -> JsValue -> nat -> JsValue -> M ReactNode)
    (color nameKey : option string) (nestLabel : bool) (nested : option TooltipLabel)
    (l : loc) (index : nat) h (value name : JsValue) (node : ReactNode) :
  is_tooltip_Payload h (JObject l) = true ->
  fields_at h l !! "value" = Some value ->
  value <> JUndefined ->
  fields_at h l !! "name" = Some name ->
  ToBoolean name = true ->
  format value name (JObject l) index (default JUndefined (fields_at h l !! "payload")) h
  = (Return node, h) ->
  tooltip_row ObjectToString node_truthy toLocaleString config indicator hideIndicator
    (Some format) color nameKey nestLabel nested (JObject l) index h
  = (Return {| row_key := tooltip_react_key (fields_at h l) index;
               row_centered := String.eqb indicator "dot";
               row_body := BodyFormatted node |}, h).
Proof.
  intros Htyped Hvalue Hdefined Hname Htruthy Hformat.
  apply andb_true_iff in Htyped as [HdataKey Hnamed].
  unfold tooltip_row.
  destruct (bind_inv _ _ _ _ _ (tooltip_key_run nameKey l h HdataKey Hnamed))
    as (keyValue & h1 & HkeyValue & Hkey).
  rewrite (bind_run _ _ _ _ _ HkeyValue), (bind_run _ _ _ _ _ Hkey).
  rewrite (bind_run _ _ _ _ _ (resolver_run _ _ _ _)).
  destruct (bind_inv _ _ _ _ _ (tooltip_color_run color l h))
    as (indicatorColor & h2 & Hcolor & Hret).
  injection Hret as -> ->.
  rewrite (bind_run _ _ _ _ _ Hcolor).
  destruct (bind_inv _ _ _ _ _ (tooltip_react_key_run l index h HdataKey))
    as (dataKey & h3 & Hget & Hreact).
  rewrite (bind_run _ _ _ _ _ Hget), (bind_run _ _ _ _ _ Hreact).
  assert (Hread_value : js_get_optional (JObject l) "value" h = (Return value, h))
    by (unfold js_get_optional, js_get; rewrite Hvalue; reflexivity).
  assert (Hread_name : js_get (JObject l) "name" h = (Return name, h))
    by (unfold js_get; rewrite Hname; reflexivity).
  assert (Hread_payload :
            js_get (JObject l) "payload" h
            = (Return (default JUndefined (fields_at h l !! "payload")), h))
    by reflexivity.
  cbv zeta.
  match goal with
  | |- bind ?body _ h = _ =>
      assert (Hbody : body h = (Return (BodyFormatted node), h))
  end.
  { rewrite (bind_run _ _ _ _ _ Hread_value).
    destruct value; try congruence; cbn [is_undefined];
      rewrite (bind_run _ _ _ _ _ Hread_name), Htruthy;
      rewrite (bind_run _ _ _ _ _ Hread_payload), (bind_run _ _ _ _ _ Hformat);
      reflexivity. }
  rewrite (bind_run _ _ _ _ _ Hbody). reflexivity.
Qed.

(** With one item, an indicator that is not the dot, and a [formatter] that
    applies to the item, the tooltip shows its label nowhere: the label is
    not put above the rows, and the row holds what the [formatter] returned
    and nothing else. *)
Theorem tooltip_formatter_drops_label (chart : ChartContextProps) (l : loc)
    (className : option string) (indicator : string) (hideLabel hideIndicator : option bool)
    (label_prop : option ReactNode)
    (format : JsValue -> JsValue -> JsValue -> nat -> JsValue -> M ReactNode)
    (labelClassName color nameKey labelKey : option string) h
    (value name : JsValue) (node : ReactNode) :
  is_tooltip_Payload h (JObject l) = true ->
  indicator <> "dot" ->
  fields_at h l !! "value" = Some value ->
  value <> JUndefined ->
  fields_at h l !! "name" = Some name ->
  ToBoolean name = true ->
  format value name (JObject l) 0 (default JUndefined (fields_at h l !! "payload")) h
  = (Return node, h) ->
  exists (element : TooltipElement) (row : TooltipRow),
    ChartTooltipContent ObjectToString node_string node_truthy toLocaleString (Some chart)
      (Some true) (Some [JObject l]) className (Some indicator) hideLabel hideIndicator
      label_prop None labelClassName (Some format) color nameKey labelKey h
    = (Return (Some element), h)
    /\ tooltip_label element = None
    /\ tooltip_rows element = [row]
    /\ row_body row = BodyFormatted node.
Proof.
  intros Htyped Hindicator Hvalue Hdefined Hname Htruthy Hformat.
  unfold ChartTooltipContent, useChart.
  rewrite (bind_run _ _ chart h h) by reflexivity.
  assert (Hall : Forall (fun item => is_tooltip_Payload h item = true) [JObject l])
    by (constructor; [exact Htyped | constructor]).
  rewrite (bind_run _ _ _ _ _
             (tooltipLabel_typed_run (config chart) (default false hideLabel) [JObject l]
                labelKey label_prop labelClassName h Hall)).
  cbn [default from_option id length Nat.eqb andb map_indexed].
  apply String.eqb_neq in Hindicator. rewrite Hindicator. cbn [negb].
  rewrite (bind_run _ _ _ _ _
             (bind_run _ _ _ _ _
                (tooltip_row_formatted (config chart) indicator _ format color nameKey _ _
                   l 0 h value name node Htyped Hvalue Hdefined Hname Htruthy Hformat)
              : bind _ _ h = (Return [_], h))) by reflexivity.
  eexists. eexists. split; [reflexivity |]. repeat split.
Qed.


(** A falsy [value] is put in the row as it is: for the number zero the row
    shows the bare [0], not the [span] with the formatted value. *)
Theorem tooltip_falsy_value_as_is config (indicator : string) (hideIndicator : bool)
    (color nameKey : option string) (nestLabel : bool) (nested : option TooltipLabel)
    (l : loc) (index : nat) h :
  is_tooltip_Payload h (JObject l) = true ->
  ToBoolean (default JUndefined (fields_at h l !! "value")) = false ->
  exists (row : TooltipRow) (mark : TooltipMark) (alignment : string)
         (shown : option TooltipLabel) (name : TooltipName),
    tooltip_row ObjectToString node_truthy toLocaleString config indicator hideIndicator
      None color nameKey nestLabel nested (JObject l) index h = (Return row, h)
    /\ row_body row
       = BodyDefault mark alignment shown name
           (ValueAsIs (default JUndefined (fields_at h l !! "value"))).
Proof.
  intros Htyped Hfalsy.
  assert (Hlocalized : value_localized toLocaleString (fun _ => "") h (JObject l)).
  { unfold value_localized, item_fields. cbv zeta. rewrite Hfalsy. discriminate. }
  rewrite (tooltip_row_run (fun _ => "")) by assumption.
  unfold tooltip_row_rendering, tooltip_value, item_fields. rewrite Hfalsy.
  do 5 eexists. split; reflexivity.
Qed.

(** Without a [labelKey] and a [labelFormatter], a [label] that is a string
    is looked up in the config as it is, not through the resolver: the
    tooltip shows the label of the config entry of that name when it is
    truthy and the string itself otherwise, whatever the first item
    holds. *)
Theorem tooltip_string_label_from_config config (labelKey labelClassName : option string)
    (node : ReactNode) (text : string) (l : loc) (others : list JsValue) h :
  is_tooltip_Payload h (JObject l) = true ->
  labelKey = None \/ labelKey = Some "" ->
  node_string node = Some text ->
  tooltipLabel ObjectToString node_string node_truthy config false
    (Some (JObject l :: others)) labelKey (Some node) None labelClassName h
  = (Return
       (if node_truthy (string_label_node node_truthy config text node)
        then Some {| label_classes := [Some "font-medium"; labelClassName];
                     label_content := string_label_node node_truthy config text node |}
        else None), h).
Proof.
  intros Htyped HlabelKey Htext.
  rewrite (tooltipLabel_run _ _ _ None) by exact Htyped.
  unfold tooltip_label_rendering, tooltip_label_value, item_fields. cbn [ToBoolean negb].
  destruct HlabelKey as [-> | ->]; cbn [prop_value ToBoolean String.eqb negb];
    rewrite Htext; reflexivity.
Qed.




End Tooltip_properties.

(* ===================================================================== *)
(** * Concrete runs                                                      *)
(* ===================================================================== *)

Section Runs.
#[local] Existing Instance IntegerHost.

(** [resolve(config, {}, "value")] is [undefined] when the config has no
    ["value"]. *)
Example resolve_absent :
  getPayloadConfigFromPayload [("bar", desktop)] (JObject 0) "value" heap_empty_object
  = (Return None, heap_empty_object).
Proof. vm_compute. reflexivity. Qed.

(** [resolve(config, {foo: "bar"}, "foo")] is the entry of ["bar"]. *)
Example resolve_direct_field :
  getPayloadConfigFromPayload [("bar", desktop)] (JObject 0) "foo" heap_direct
  = (Return (Some (Entry desktop)), heap_direct).
Proof. vm_compute. reflexivity. Qed.

(** [resolve(config, {payload: {foo: "bar"}}, "foo")] is the entry of
    ["bar"]. *)
Example resolve_nested_payload :
  getPayloadConfigFromPayload [("bar", desktop)] (JObject 0) "foo" heap_nested
  = (Return (Some (Entry desktop)), heap_nested).
Proof. vm_compute. reflexivity. Qed.

(** The literal key is the fallback when the effective key has no entry. *)
Example resolve_literal_fallback :
  getPayloadConfigFromPayload [("foo", mobile)] (JObject 0) "foo" heap_direct
  = (Return (Some (Entry mobile)), heap_direct).
Proof. vm_compute. reflexivity. Qed.

(** The style element of a config with a direct color and a themed one. *)
Example ChartStyle_two_entries :
  ChartStyle "chart-1" [("desktop", desktop); ("other", bare); ("mobile", mobile)]
  = Some (LF +:+ " [data-chart=chart-1] {" +:+ LF
          +:+ "  --color-desktop: red;" +:+ LF
          +:+ "  --color-mobile: #fff;" +:+ LF
          +:+ "}" +:+ LF
          +:+ LF
          +:+ LF +:+ ".dark [data-chart=chart-1] {" +:+ LF
          +:+ "  --color-desktop: red;" +:+ LF
          +:+ "  --color-mobile: #000;" +:+ LF
          +:+ "}" +:+ LF).
Proof. vm_compute. reflexivity. Qed.

(** C1, where the code leaves it.  The config [{ name: desktop }] has one
    entry; the item [{ name: "constructor" }] gives the effective key
    ["constructor"] for the key ["name"].  The config has no entry under
    the effective key and has one under the original key, which is the one
    the fallback should return; the resolver returns the member
    [constructor] the config inherits from [Object.prototype]. *)
Theorem resolver_returns_inherited_member :
  Spec.effective_key heap_constructor (fields_at heap_constructor 0) "name" = "constructor"
  /\ own_entry [("name", desktop)] "constructor" = None
  /\ own_entry [("name", desktop)] "name" = Some desktop
  /\ Spec.resolve_entry [("name", desktop)] heap_constructor (fields_at heap_constructor 0)
       "name" = Some desktop
  /\ getPayloadConfigFromPayload [("name", desktop)] (JObject 0) "name" heap_constructor
     = (Return (Some (Inherited "constructor")), heap_constructor).
Proof. repeat split; vm_compute; reflexivity. Qed.

(** C5, where the code leaves it.  The resolver never throws; but a lookup
    that misses does not always give [undefined]: on the empty config, the
    item [{}] and the key ["toString"], where the config has no entry at
    all, the resolver returns the member [toString] the config inherits
    from [Object.prototype]. *)
Theorem resolver_miss_returns_inherited_member :
  (forall (config : ChartConfig) (payload : JsValue) (key : string) (h : Heap),
     exists result, getPayloadConfigFromPayload config payload key h = (Return result, h))
  /\ own_entry [] "toString" = None
  /\ Spec.resolve_entry [] heap_empty_object (fields_at heap_empty_object 0) "toString"
     = None
  /\ getPayloadConfigFromPayload [] (JObject 0) "toString" heap_empty_object
     = (Return (Some (Inherited "toString")), heap_empty_object).
Proof.
  split; [intros config payload key h; rewrite resolver_run; eauto |].
  repeat split; vm_compute; reflexivity.
Qed.

Lemma resolver_prefers_effective_key_witness :
  config_get [("bar", desktop); ("foo", mobile)]
    (Spec.effective_key heap_direct (fields_at heap_direct 0) "foo") = Some (Entry desktop)
  /\ config_get [("bar", desktop); ("foo", mobile)] "foo" = Some (Entry mobile)
  /\ getPayloadConfigFromPayload [("bar", desktop); ("foo", mobile)] (JObject 0) "foo" heap_direct
     = (Return (Some (Entry desktop)), heap_direct).
Proof.
  assert (Heffective : config_get [("bar", desktop); ("foo", mobile)]
            (Spec.effective_key heap_direct (fields_at heap_direct 0) "foo") = Some (Entry desktop))
    by (vm_compute; reflexivity).
  assert (Hliteral : config_get [("bar", desktop); ("foo", mobile)] "foo" = Some (Entry mobile))
    by (vm_compute; reflexivity).
  split; [exact Heffective |]. split; [exact Hliteral |].
  exact (resolver_prefers_effective_key _ 0 "foo" heap_direct (Entry desktop) (Entry mobile)
           Heffective Hliteral).
Defined.

Lemma resolver_non_object_undefined_witness :
  is_object JNull = false
  /\ config_get [("foo", desktop)] "foo" = Some (Entry desktop)
  /\ getPayloadConfigFromPayload [("foo", desktop)] JNull "foo" heap_direct
     = (Return None, heap_direct).
Proof.
  split; [reflexivity |]. split; [reflexivity |].
  apply (resolver_non_object_undefined [("foo", desktop)] JNull "foo" heap_direct).
  reflexivity.
Defined.

Lemma resolver_numeric_coercion_witness :
  fields_at heap_numeric 0 !! "foo" = Some (JNumber 42%Z)
  /\ config_get [("42", desktop)] (NumberToString 42%Z) = Some (Entry desktop)
  /\ getPayloadConfigFromPayload [("42", desktop)] (JObject 0) "foo" heap_numeric
     = (Return (Some (Entry desktop)), heap_numeric).
Proof.
  assert (Hfield : fields_at heap_numeric 0 !! "foo" = Some (JNumber 42%Z))
    by (vm_compute; reflexivity).
  assert (Hentry : config_get [("42", desktop)] (NumberToString 42%Z) = Some (Entry desktop))
    by (vm_compute; reflexivity).
  split; [exact Hfield |]. split; [exact Hentry |].
  exact (resolver_numeric_coercion _ 0 "foo" heap_numeric 42%Z (Entry desktop) Hfield Hentry).
Defined.

Lemma resolver_pure_witness :
  same_payload (JObject 0) heap_nested heap_nested_and_more
  /\ heap_nested <> heap_nested_and_more
  /\ exists result : Completion (option ConfigValue),
       getPayloadConfigFromPayload [("bar", desktop)] (JObject 0) "foo" heap_nested
       = (result, heap_nested)
       /\ getPayloadConfigFromPayload [("bar", desktop)] (JObject 0) "foo" heap_nested_and_more
          = (result, heap_nested_and_more).
Proof.
  assert (Hsame : same_payload (JObject 0) heap_nested heap_nested_and_more).
  { split; [vm_compute; reflexivity |].
    intros l' Hnested. vm_compute in Hnested.
    injection Hnested as <-. vm_compute. reflexivity. }
  split; [exact Hsame |]. split.
  - intros Heq. apply (f_equal (fun h : Heap => h !! 7)) in Heq.
    vm_compute in Heq. discriminate Heq.
  - exact (resolver_pure [("bar", desktop)] (JObject 0) "foo" _ _ Hsame).
Defined.

Lemma resolver_skips_non_object_nested_witness :
  fields_at heap_string_payload 0 !! "payload" = Some (JString "bar")
  /\ is_object (JString "bar") = false
  /\ getPayloadConfigFromPayload [("bar", desktop); ("foo", mobile)] (JObject 0) "foo"
       heap_string_payload
     = (Return (Some (Entry mobile)), heap_string_payload).
Proof.
  assert (Hfield : fields_at heap_string_payload 0 !! "payload" = Some (JString "bar"))
    by (vm_compute; reflexivity).
  split; [exact Hfield |]. split; [reflexivity |].
  exact (resolver_skips_non_object_nested [("bar", desktop); ("foo", mobile)] 0 "foo"
           heap_string_payload (JString "bar") Hfield eq_refl).
Defined.

(** The [ChartConfig] type admits an entry that sets neither [color] nor
    [theme]. *)
Lemma ChartConfig_admits_bare_entry :
  ChartConfig_entry bare = true /\ ~ exactly_one_of_color_and_theme bare.
Proof.
  split; [reflexivity |].
  intros [[[c Hc] _] | [_ [t Ht]]]; discriminate.
Qed.


End Runs.

(* ===================================================================== *)
(** * Concrete runs of the further properties                            *)
(* ===================================================================== *)

Section Further_runs.
#[local] Existing Instance IntegerHost.

Ltac by_computation := vm_compute; reflexivity.

Lemma series_items_typed :
  Forall (fun item => is_RechartsLegendPayload chart_heap item = true) series_items.
Proof. repeat constructor. Qed.

Lemma series_items_tooltip_typed :
  Forall (fun item => is_tooltip_Payload chart_heap item = true) series_items.
Proof. repeat constructor. Qed.

Lemma resolver_direct_field_decides_witness :
  is_Some (String_of_string_or_number (JString "bar"))
  /\ fields_at heap_direct 0 !! "foo" = Some (JString "bar")
  /\ fields_at heap_nested 1 !! "foo" = Some (JString "bar")
  /\ fst (getPayloadConfigFromPayload [("bar", desktop)] (JObject 0) "foo" heap_direct)
     = fst (getPayloadConfigFromPayload [("bar", desktop)] (JObject 1) "foo" heap_nested).
Proof.
  assert (Hcoerced : is_Some (String_of_string_or_number (JString "bar"))) by (simpl; eauto).
  assert (Hfirst : fields_at heap_direct 0 !! "foo" = Some (JString "bar")) by by_computation.
  assert (Hsecond : fields_at heap_nested 1 !! "foo" = Some (JString "bar")) by by_computation.
  split; [exact Hcoerced |]. split; [exact Hfirst |]. split; [exact Hsecond |].
  exact (resolver_direct_field_decides [("bar", desktop)] 0 1 "foo" heap_direct heap_nested
           (JString "bar") Hcoerced Hfirst Hsecond).
Defined.

Lemma ChartStyle_filter_only_decides_null_witness :
  ChartStyle "chart-1" [("desktop", desktop); ("other", bare)]
  = Some (join LF (map (theme_rule "chart-1" [("desktop", desktop)]) THEMES))
  /\ join LF (map (theme_rule "chart-1" [("desktop", desktop)]) THEMES)
     = join LF (map (theme_rule "chart-1" [("desktop", desktop); ("other", bare)]) THEMES).
Proof.
  assert (Hstyle : ChartStyle "chart-1" [("desktop", desktop); ("other", bare)]
                   = Some (join LF (map (theme_rule "chart-1" [("desktop", desktop)]) THEMES)))
    by by_computation.
  split; [exact Hstyle |].
  exact (ChartStyle_filter_only_decides_null "chart-1" [("desktop", desktop); ("other", bare)]
           _ Hstyle).
Defined.

Lemma ChartStyle_same_rules_without_theme_witness :
  Forall (fun entry : string * ChartItem => theme (snd entry) = None)
    [("desktop", desktop); ("other", bare)]
  /\ ChartStyle "chart-1" [("desktop", desktop); ("other", bare)]
     = Some (LF +:+ " [data-chart=chart-1] {" +:+ LF +:+ "  --color-desktop: red;" +:+ LF
                +:+ "}" +:+ LF +:+ LF
                +:+ LF +:+ ".dark [data-chart=chart-1] {" +:+ LF
                +:+ "  --color-desktop: red;" +:+ LF +:+ "}" +:+ LF)
  /\ LF +:+ " [data-chart=chart-1] {" +:+ LF +:+ "  --color-desktop: red;" +:+ LF
        +:+ "}" +:+ LF +:+ LF
        +:+ LF +:+ ".dark [data-chart=chart-1] {" +:+ LF
        +:+ "  --color-desktop: red;" +:+ LF +:+ "}" +:+ LF
     = join LF
         (map (fun themeEntry : string * string =>
                 LF +:+ snd themeEntry +:+ " [data-chart=" +:+ "chart-1" +:+ "] {" +:+ LF
                    +:+ join LF (omap color_property [("desktop", desktop); ("other", bare)])
                    +:+ LF +:+ "}" +:+ LF)
            THEMES).
Proof.
  assert (Hno_theme : Forall (fun entry : string * ChartItem => theme (snd entry) = None)
                        [("desktop", desktop); ("other", bare)])
    by (repeat constructor).
  assert (Hstyle : ChartStyle "chart-1" [("desktop", desktop); ("other", bare)]
                   = Some (LF +:+ " [data-chart=chart-1] {" +:+ LF
                              +:+ "  --color-desktop: red;" +:+ LF
                              +:+ "}" +:+ LF +:+ LF
                              +:+ LF +:+ ".dark [data-chart=chart-1] {" +:+ LF
                              +:+ "  --color-desktop: red;" +:+ LF +:+ "}" +:+ LF))
    by by_computation.
  split; [exact Hno_theme |]. split; [exact Hstyle |].
  exact (ChartStyle_same_rules_without_theme "chart-1" [("desktop", desktop); ("other", bare)]
           _ Hno_theme Hstyle).
Defined.


Lemma chartId_keeps_colon_free_id_witness :
  colon_free "r1" /\ chartId None "r1" = "chart-r1".
Proof.
  assert (Hfree : colon_free "r1").
  { unfold colon_free. simpl. intros [H | [H | []]]; discriminate H. }
  split; [exact Hfree |].
  exact (chartId_keeps_colon_free_id "r1" Hfree).
Defined.

Lemma legend_renders_each_item_witness :
  Forall (fun item => is_RechartsLegendPayload chart_heap item = true) series_items
  /\ exists result : option LegendElement,
       ChartLegendContent plain_toString (Some chart_context) None None (Some series_items)
         None None chart_heap = (Return result, chart_heap)
       /\ (result = None <-> series_items = [])
       /\ (forall element, result = Some element ->
             length (legend_items element) = length series_items).
Proof.
  split; [exact series_items_typed |].
  exact (legend_renders_each_item plain_toString chart_context None None series_items
           None None chart_heap series_items_typed).
Defined.

Lemma legend_item_shows_resolved_entry_witness :
  Forall (fun item => is_RechartsLegendPayload chart_heap item = true) [JObject 3]
  /\ [JObject 3] !! 0 = Some (JObject 3)
  /\ getPayloadConfigFromPayload (config chart_context) (JObject 3)
       (legend_lookup_key (Some "browser") (fields_at chart_heap 3)) chart_heap
     = (Return (Some (Entry chrome)), chart_heap)
  /\ exists (element : LegendElement) (rendered : LegendItem),
       ChartLegendContent plain_toString (Some chart_context) None None (Some [JObject 3])
         None (Some "browser") chart_heap = (Return (Some element), chart_heap)
       /\ legend_items element !! 0 = Some rendered
       /\ item_label rendered = label chrome
       /\ item_mark rendered = LegendIcon ("ChromeIcon" : string).
Proof.
  assert (Htyped : Forall (fun item => is_RechartsLegendPayload chart_heap item = true)
                     [JObject 3]) by (repeat constructor).
  assert (Hitem : [JObject 3] !! 0 = Some (JObject 3)) by reflexivity.
  assert (Hresolved :
            getPayloadConfigFromPayload (config chart_context) (JObject 3)
              (legend_lookup_key (Some "browser") (fields_at chart_heap 3)) chart_heap
            = (Return (Some (Entry chrome)), chart_heap)) by by_computation.
  split; [exact Htyped |]. split; [exact Hitem |]. split; [exact Hresolved |].
  exact (legend_item_shows_resolved_entry plain_toString chart_context None None [JObject 3]
           None (Some "browser") chart_heap 0 3 (Some (Entry chrome)) Htyped Hitem Hresolved).
Defined.

Lemma legend_null_item_throws_witness :
  Forall (fun item => is_RechartsLegendPayload chart_heap item = true) [JObject 0]
  /\ (JNull = JNull \/ JNull = JUndefined)
  /\ ChartLegendContent plain_toString (Some chart_context) None None
       (Some ([JObject 0] ++ JNull :: [JObject 1])%list) None (Some "browser") chart_heap
     = (Throw (TypeError "Cannot read properties of undefined or null"), chart_heap).
Proof.
  assert (Htyped : Forall (fun item => is_RechartsLegendPayload chart_heap item = true)
                     [JObject 0]) by (repeat constructor).
  assert (Hnull : JNull = JNull \/ JNull = JUndefined) by (left; reflexivity).
  split; [exact Htyped |]. split; [exact Hnull |].
  exact (legend_null_item_throws plain_toString chart_context None None [JObject 0]
           [JObject 1] JNull None (Some "browser") chart_heap Htyped Hnull).
Defined.

Lemma legend_position_keys_distinct_witness :
  Forall (fun item => is_RechartsLegendPayload chart_heap item = true) series_items
  /\ series_items !! 0 = Some (JObject 0)
  /\ series_items !! 1 = Some (JObject 1)
  /\ ToBoolean (default JUndefined (fields_at chart_heap 0 !! "value")) = false
  /\ ToBoolean (default JUndefined (fields_at chart_heap 1 !! "value")) = false
  /\ 0 <> 1
  /\ exists (element : LegendElement) (first second : LegendItem),
       ChartLegendContent plain_toString (Some chart_context) None None (Some series_items)
         None None chart_heap = (Return (Some element), chart_heap)
       /\ legend_items element !! 0 = Some first
       /\ legend_items element !! 1 = Some second
       /\ item_key first <> item_key second.
Proof.
  assert (Hfirst : ToBoolean (default JUndefined (fields_at chart_heap 0 !! "value")) = false)
    by by_computation.
  assert (Hsecond : ToBoolean (default JUndefined (fields_at chart_heap 1 !! "value")) = false)
    by by_computation.
  assert (Hdistinct : 0 <> 1) by discriminate.
  split; [exact series_items_typed |]. split; [reflexivity |]. split; [reflexivity |].
  split; [exact Hfirst |]. split; [exact Hsecond |]. split; [exact Hdistinct |].
  exact (legend_position_keys_distinct plain_toString chart_context None None series_items
           None None chart_heap 0 1 0 1 series_items_typed eq_refl eq_refl Hfirst Hsecond
           Hdistinct).
Defined.

Lemma legend_nameKey_skips_dataKey_witness :
  "browser" <> ""
  /\ fields_at chart_heap 5 !! "dataKey" = Some (JFunction 6)
  /\ string_or_number_or_absent (fields_at chart_heap 5 !! "value") = true
  /\ exists (rendered : LegendItem) (itemConfig : option ConfigValue),
       legend_item plain_toString chart_config false (Some "browser") (JObject 5) 0 chart_heap
       = (Return rendered, chart_heap)
       /\ getPayloadConfigFromPayload chart_config (JObject 5) "browser" chart_heap
          = (Return itemConfig, chart_heap)
       /\ item_label rendered
          = label_of itemConfig.
Proof.
  assert (Hname : "browser" <> "") by discriminate.
  assert (Hfunction : fields_at chart_heap 5 !! "dataKey" = Some (JFunction 6))
    by by_computation.
  assert (Hvalue : string_or_number_or_absent (fields_at chart_heap 5 !! "value") = true)
    by by_computation.
  split; [exact Hname |]. split; [exact Hfunction |]. split; [exact Hvalue |].
  exact (legend_nameKey_skips_dataKey plain_toString chart_config false "browser" 5 0
           chart_heap Hname Hvalue).
Defined.


Lemma resolver_entries_unless_inherited_witness :
  inherited (Spec.effective_key heap_nested (fields_at heap_nested 0) "foo") = false
  /\ inherited "foo" = false
  /\ getPayloadConfigFromPayload [("bar", desktop); ("foo", mobile)] (JObject 0) "foo"
       heap_nested
     = (Return (Entry <$> Spec.resolve_entry [("bar", desktop); ("foo", mobile)] heap_nested
                            (fields_at heap_nested 0) "foo"), heap_nested).
Proof.
  assert (Heffective :
            inherited (Spec.effective_key heap_nested (fields_at heap_nested 0) "foo") = false)
    by by_computation.
  assert (Hliteral : inherited "foo" = false) by reflexivity.
  split; [exact Heffective |]. split; [exact Hliteral |].
  exact (resolver_entries_unless_inherited [("bar", desktop); ("foo", mobile)] 0 "foo"
           heap_nested Heffective Hliteral).
Defined.

Lemma tooltip_inactive_runs_labelFormatter_witness :
  is_tooltip_Payload chart_heap (JObject 0) = true
  /\ default false (None : option bool) = false
  /\ (forall value,
        failing_labelFormatter value [JObject 0; JObject 1] chart_heap
        = (Throw (Error "no label"), chart_heap))
  /\ ChartTooltipContent plain_toString string_node_string string_node_truthy
       plain_toLocaleString (Some chart_context) (Some false) (Some [JObject 0; JObject 1])
       None None None None None (Some failing_labelFormatter) None None None None None
       chart_heap
     = (Throw (Error "no label"), chart_heap).
Proof.
  assert (Htyped : is_tooltip_Payload chart_heap (JObject 0) = true) by by_computation.
  assert (Hshown : default false (None : option bool) = false) by reflexivity.
  assert (Hthrows : forall value,
            failing_labelFormatter value [JObject 0; JObject 1] chart_heap
            = (Throw (Error "no label"), chart_heap)) by (intros value; reflexivity).
  split; [exact Htyped |]. split; [exact Hshown |]. split; [exact Hthrows |].
  exact (tooltip_inactive_runs_labelFormatter plain_toString string_node_string
           string_node_truthy plain_toLocaleString chart_context (Some false) 0 [JObject 1]
           None None None None None failing_labelFormatter None None None None None
           (Error "no label") chart_heap chart_heap Htyped Hshown Hthrows).
Defined.

Lemma series_items_localized :
  Forall (value_localized plain_toLocaleString plain_localized chart_heap) series_items.
Proof.
  repeat constructor; unfold value_localized; cbv zeta; intros Htruthy;
    vm_compute in Htruthy; try discriminate Htruthy; vm_compute; reflexivity.
Qed.

Lemma tooltip_renders_each_item_witness :
  Forall (fun item => is_tooltip_Payload chart_heap item = true) series_items
  /\ Forall (value_localized plain_toLocaleString plain_localized chart_heap) series_items
  /\ exists result : option TooltipElement,
       ChartTooltipContent plain_toString string_node_string string_node_truthy
         plain_toLocaleString (Some chart_context) (Some true) (Some series_items) None None
         None None (Some ("January" : string)) None None None None None None chart_heap
       = (Return result, chart_heap)
       /\ (result = None <-> default false (Some true) = false \/ series_items = [])
       /\ (forall element, result = Some element ->
             length (tooltip_rows element) = length series_items).
Proof.
  split; [exact series_items_tooltip_typed |]. split; [exact series_items_localized |].
  exact (tooltip_renders_each_item plain_toString string_node_string string_node_truthy
           plain_toLocaleString plain_localized chart_context (Some true) series_items None
           None None None (Some ("January" : string)) None None None None chart_heap
           series_items_tooltip_typed series_items_localized).
Defined.

Lemma tooltip_label_in_one_place_witness :
  Forall (fun item => is_tooltip_Payload fill_heap item = true) [JObject 0]
  /\ Forall (value_localized plain_toLocaleString plain_localized fill_heap) [JObject 0]
  /\ [JObject 0] <> []
  /\ tooltipLabel plain_toString string_node_string string_node_truthy (config chart_context)
       (default false None) (Some [JObject 0]) None (Some ("desktop" : string))
       (Some (fun value _ => ret (default ("" : string) value))) None fill_heap
     = (Return (Some {| label_classes := [Some "font-medium"; None];
                        label_content := ("Desktop" : string) |}), fill_heap)
  /\ exists element : TooltipElement,
       ChartTooltipContent plain_toString string_node_string string_node_truthy
         plain_toLocaleString (Some chart_context) (Some true) (Some [JObject 0]) None
         (Some "line") None None (Some ("desktop" : string))
         (Some (fun value _ => ret (default ("" : string) value))) None None None None None
         fill_heap = (Return (Some element), fill_heap)
       /\ tooltip_label element = None
       /\ Forall (fun row =>
                    nested_label row
                    = Some {| label_classes := [Some "font-medium"; None];
                              label_content := ("Desktop" : string) |})
            (tooltip_rows element).
Proof.
  assert (Htyped : Forall (fun item => is_tooltip_Payload fill_heap item = true) [JObject 0])
    by (repeat constructor).
  assert (Hlocalized : Forall (value_localized plain_toLocaleString plain_localized fill_heap)
                         [JObject 0])
    by (repeat constructor; unfold value_localized; cbv zeta; intros _; vm_compute;
        reflexivity).
  assert (Hitems : [JObject 0] <> []) by discriminate.
  assert (Hshown :
            tooltipLabel plain_toString string_node_string string_node_truthy
              (config chart_context) (default false None) (Some [JObject 0]) None
              (Some ("desktop" : string))
              (Some (fun value _ => ret (default ("" : string) value))) None fill_heap
            = (Return (Some {| label_classes := [Some "font-medium"; None];
                               label_content := ("Desktop" : string) |}), fill_heap))
    by by_computation.
  split; [exact Htyped |]. split; [exact Hlocalized |]. split; [exact Hitems |].
  split; [exact Hshown |].
  exact (tooltip_label_in_one_place plain_toString string_node_string string_node_truthy
           plain_toLocaleString plain_localized chart_context [JObject 0] None (Some "line")
           None None (Some ("desktop" : string))
           (Some (fun value _ => ret (default ("" : string) value))) None None None None _
           fill_heap Htyped Hlocalized Hitems Hshown).
Defined.

Lemma tooltip_formatter_drops_label_witness :
  is_tooltip_Payload chart_heap (JObject 0) = true
  /\ "line" <> "dot"
  /\ fields_at chart_heap 0 !! "value" = Some (JNumber 0%Z)
  /\ JNumber 0%Z <> JUndefined
  /\ fields_at chart_heap 0 !! "name" = Some (JString "desktop")
  /\ ToBoolean (JString "desktop") = true
  /\ name_formatter (JNumber 0%Z) (JString "desktop") (JObject 0) 0
       (default JUndefined (fields_at chart_heap 0 !! "payload")) chart_heap
     = (Return ("desktop" : string), chart_heap)
  /\ exists (element : TooltipElement) (row : TooltipRow),
       ChartTooltipContent plain_toString string_node_string string_node_truthy
         plain_toLocaleString (Some chart_context) (Some true) (Some [JObject 0]) None
         (Some "line") None None (Some ("desktop" : string)) None None (Some name_formatter)
         None None None chart_heap
       = (Return (Some element), chart_heap)
       /\ tooltip_label element = None
       /\ tooltip_rows element = [row]
       /\ row_body row = BodyFormatted ("desktop" : string).
Proof.
  assert (Htyped : is_tooltip_Payload chart_heap (JObject 0) = true) by by_computation.
  assert (Hindicator : "line" <> "dot") by discriminate.
  assert (Hvalue : fields_at chart_heap 0 !! "value" = Some (JNumber 0%Z)) by by_computation.
  assert (Hdefined : JNumber 0%Z <> JUndefined) by discriminate.
  assert (Hname : fields_at chart_heap 0 !! "name" = Some (JString "desktop"))
    by by_computation.
  assert (Htruthy : ToBoolean (JString "desktop") = true) by reflexivity.
  assert (Hformat :
            name_formatter (JNumber 0%Z) (JString "desktop") (JObject 0) 0
              (default JUndefined (fields_at chart_heap 0 !! "payload")) chart_heap
            = (Return ("desktop" : string), chart_heap)) by reflexivity.
  split; [exact Htyped |]. split; [exact Hindicator |]. split; [exact Hvalue |].
  split; [exact Hdefined |]. split; [exact Hname |]. split; [exact Htruthy |].
  split; [exact Hformat |].
  exact (tooltip_formatter_drops_label plain_toString string_node_string string_node_truthy
           plain_toLocaleString chart_context 0 None "line" None None
           (Some ("desktop" : string)) name_formatter None None None None chart_heap
           (JNumber 0%Z) (JString "desktop") ("desktop" : string)
           Htyped Hindicator Hvalue Hdefined Hname Htruthy Hformat).
Defined.


Lemma tooltip_falsy_value_as_is_witness :
  is_tooltip_Payload chart_heap (JObject 0) = true
  /\ ToBoolean (default JUndefined (fields_at chart_heap 0 !! "value")) = false
  /\ default JUndefined (fields_at chart_heap 0 !! "value") = JNumber 0%Z
  /\ exists (row : TooltipRow) (mark : TooltipMark) (alignment : string)
            (shown : option TooltipLabel) (name : TooltipName),
       tooltip_row plain_toString string_node_truthy plain_toLocaleString chart_config "dot"
         false None None None false None (JObject 0) 0 chart_heap = (Return row, chart_heap)
       /\ row_body row
          = BodyDefault mark alignment shown name
              (ValueAsIs (default JUndefined (fields_at chart_heap 0 !! "value"))).
Proof.
  assert (Htyped : is_tooltip_Payload chart_heap (JObject 0) = true) by by_computation.
  assert (Hfalsy : ToBoolean (default JUndefined (fields_at chart_heap 0 !! "value")) = false)
    by by_computation.
  split; [exact Htyped |]. split; [exact Hfalsy |]. split; [by_computation |].
  exact (tooltip_falsy_value_as_is plain_toString string_node_truthy plain_toLocaleString
           chart_config "dot" false None None false None 0 0 chart_heap Htyped Hfalsy).
Defined.

Lemma tooltip_string_label_from_config_witness :
  is_tooltip_Payload chart_heap (JObject 1) = true
  /\ ((None : option string) = None \/ (None : option string) = Some "")
  /\ string_node_string ("desktop" : string) = Some "desktop"
  /\ tooltipLabel plain_toString string_node_string string_node_truthy chart_config false
       (Some [JObject 1]) None (Some ("desktop" : string)) None None chart_heap
     = (Return (Some {| label_classes := [Some "font-medium"; None];
                        label_content := ("Desktop" : string) |}), chart_heap).
Proof.
  assert (Htyped : is_tooltip_Payload chart_heap (JObject 1) = true) by by_computation.
  assert (HlabelKey : (None : option string) = None \/ (None : option string) = Some "")
    by (left; reflexivity).
  assert (Htext : string_node_string ("desktop" : string) = Some "desktop") by reflexivity.
  split; [exact Htyped |]. split; [exact HlabelKey |]. split; [exact Htext |].
  exact (tooltip_string_label_from_config plain_toString string_node_string
           string_node_truthy chart_config None None ("desktop" : string) "desktop" 1 []
           chart_heap Htyped HlabelKey Htext).
Defined.

End Further_runs.
